(** * telly: the lineup model (models/lineup.go)

  A shallow embedding of the Lineup record, of the discovery data derived
  from it, and of the LineupDB operations, which talk to a SQL table
  through sqlx and to the channel store through the API collection.

  Go's [int] is modelled by [Z] (the file performs no arithmetic on it),
  Go's [string] by [string], a [*time.Time] by [option Z] (a nullable
  instant), a slice by a [list], and a [(value, error)] result by a pair
  whose second component is an [option error] ([None] is Go's [nil]). *)

From Stdlib Require Import String Ascii ZArith List Lia.
From Stdlib Require Import Decimal DecimalString DecimalPos DecimalZ.
From ExtLib Require Import Structures.Monad Structures.MonadState.
From ExtLib Require Import Data.Monads.StateMonad.
Import ListNotations.
Import MonadNotation.
Local Open Scope string_scope.
Local Open Scope Z_scope.
Local Open Scope monad_scope.

(** ** fmt.Sprintf, for the verbs the file uses *)

Module Fmt.

(** An operand of [Sprintf]: the file passes strings and ints only. *)
Inductive operand : Type :=
| OStr (s : string)
| OInt (n : Z).

(** [%d] of an int: decimal digits, with a leading minus sign when
    negative. *)
Definition itoa (n : Z) : string := NilZero.string_of_int (Z.to_int n).

(** What [fmt] prints for a verb whose operand has the wrong type. *)
Definition bad_verb (v : ascii) (o : operand) : string :=
  match o with
  | OStr s => "%!" ++ String v ("(string=" ++ s ++ ")")
  | OInt n => "%!" ++ String v ("(int=" ++ itoa n ++ ")")
  end.

(** What [fmt] prints for a verb that has no operand left. *)
Definition missing (v : ascii) : string := "%!" ++ String v "(MISSING)".

(** One verb applied to one operand. *)
Definition verb (v : ascii) (o : operand) : string :=
  match v, o with
  | "s"%char, OStr s => s
  | "v"%char, OStr s => s
  | "d"%char, OInt n => itoa n
  | "v"%char, OInt n => itoa n
  | _, _ => bad_verb v o
  end.

(** What [fmt] appends for the operands no verb has consumed. *)
Definition extra_one (o : operand) : string :=
  match o with
  | OStr s => "string=" ++ s
  | OInt n => "int=" ++ itoa n
  end.

Fixpoint extra_list (operands : list operand) : string :=
  match operands with
  | [] => ""
  | [o] => extra_one o
  | o :: rest => extra_one o ++ ", " ++ extra_list rest
  end.

Definition extra (operands : list operand) : string :=
  match operands with
  | [] => ""
  | _ => "%!(EXTRA " ++ extra_list operands ++ ")"
  end.

(** [Sprintf format operands] for formats whose verbs are [%s], [%d] and
    [%v] without flags (any other verb is rendered as a mismatch here):
    literal text is copied, [%%] prints a percent sign, every other verb
    consumes the next operand, and operands left over are reported. *)
Fixpoint Sprintf (format : string) (operands : list operand) : string :=
  match format with
  | EmptyString => extra operands
  | String "%"%char EmptyString => "%!(NOVERB)" ++ extra operands
  | String "%"%char (String "%"%char rest) => String "%"%char (Sprintf rest operands)
  | String "%"%char (String v rest) =>
      match operands with
      | [] => missing v ++ Sprintf rest []
      | o :: operands' => verb v o ++ Sprintf rest operands'
      end
  | String c rest => String c (Sprintf rest operands)
  end.

(** A string without a colon. *)
Fixpoint colon_free (s : string) : Prop :=
  match s with
  | EmptyString => True
  | String c rest => c <> ":"%char /\ colon_free rest
  end.

End Fmt.

(** ** The data model *)

Section Lineup.

(** [LineupChannel] is declared by the channel model, in another file of
    the package; nothing here looks inside one. *)
Context {LineupChannel : Type}.

(** DiscoveryData contains data about telly to expose in the HDHomeRun
    format for Plex detection. *)
Record DiscoveryData : Type := mkDiscoveryData {
  dd_FriendlyName    : string;
  dd_Manufacturer    : string;
  dd_ModelName       : string;
  dd_ModelNumber     : string;
  dd_FirmwareName    : string;
  dd_TunerCount      : Z;
  dd_FirmwareVersion : string;
  dd_DeviceID        : string;
  dd_DeviceAuth      : string;
  dd_BaseURL         : string;
  dd_LineupURL       : string;
  dd_DeviceUUID      : string
}.

(** The part of goupnp's [RootDevice] that [UPNP] fills in; the fields it
    does not mention keep Go's zero value and are left out. *)
Record SpecVersion : Type := mkSpecVersion {
  Major : Z;
  Minor : Z
}.

Record URLField : Type := mkURLField {
  Str : string
}.

Record Device : Type := mkDevice {
  DeviceType       : string;
  FriendlyName     : string;
  Manufacturer     : string;
  ModelName        : string;
  ModelNumber      : string;
  ModelDescription : string;
  SerialNumber     : string;
  UDN              : string;
  PresentationURL  : URLField
}.

Record RootDevice : Type := mkRootDevice {
  rd_SpecVersion : SpecVersion;
  rd_URLBaseStr  : string;
  rd_Device      : Device
}.

(** UPNP returns the UPNP representation of the DiscoveryData. *)
Definition UPNP (d : DiscoveryData) : RootDevice :=
  {| rd_SpecVersion := {| Major := 1; Minor := 0 |};
     rd_URLBaseStr := dd_BaseURL d;
     rd_Device :=
       {| DeviceType := "urn:schemas-upnp-org:device:MediaServer:1";
          FriendlyName := dd_FriendlyName d;
          Manufacturer := dd_Manufacturer d;
          ModelName := dd_ModelName d;
          ModelNumber := dd_ModelNumber d;
          ModelDescription :=
            Fmt.Sprintf "%s %s"
              [Fmt.OStr (dd_ModelNumber d); Fmt.OStr (dd_ModelName d)];
          SerialNumber := dd_DeviceID d;
          UDN := dd_DeviceUUID d;
          PresentationURL := {| Str := "/" |} |} |}.

(** A lineup as Go holds it: the sixteen columns of a row, then the
    channels, which no column carries. *)
Record SQLLineup : Type := mkSQLLineup {
  ID               : Z;
  Name             : string;
  SSDP             : bool;
  ListenAddress    : string;
  DiscoveryAddress : string;
  Port             : Z;
  Tuners           : Z;
  lu_Manufacturer  : string;
  lu_ModelName     : string;
  lu_ModelNumber   : string;
  FirmwareName     : string;
  FirmwareVersion  : string;
  DeviceID         : string;
  DeviceAuth       : string;
  DeviceUUID       : string;
  CreatedAt        : option Z;
  Channels         : list LineupChannel
}.

(** [SQLLineup{}], Go's zero value. *)
Definition zero_SQLLineup : SQLLineup :=
  {| ID := 0; Name := ""; SSDP := false; ListenAddress := "";
     DiscoveryAddress := ""; Port := 0; Tuners := 0; lu_Manufacturer := "";
     lu_ModelName := ""; lu_ModelNumber := ""; FirmwareName := "";
     FirmwareVersion := ""; DeviceID := ""; DeviceAuth := "";
     DeviceUUID := ""; CreatedAt := None; Channels := [] |}.

(** The value [GetDiscoveryData] returns. *)
Definition discovery_of (s : SQLLineup) : DiscoveryData :=
  let baseAddr :=
    Fmt.Sprintf "http://%s:%d" [Fmt.OStr (DiscoveryAddress s); Fmt.OInt (Port s)] in
  {| dd_FriendlyName := Name s;
     dd_Manufacturer := lu_Manufacturer s;
     dd_ModelName := lu_ModelName s;
     dd_ModelNumber := lu_ModelNumber s;
     dd_FirmwareName := FirmwareName s;
     dd_TunerCount := Tuners s;
     dd_FirmwareVersion := FirmwareVersion s;
     dd_DeviceID := DeviceID s;
     dd_DeviceAuth := DeviceAuth s;
     dd_BaseURL := baseAddr;
     dd_LineupURL := Fmt.Sprintf "%s/lineup.json" [Fmt.OStr baseAddr];
     dd_DeviceUUID := DeviceUUID s |}.

(** [GetDiscoveryData] has a pointer receiver: it runs on the lineup the
    pointer designates, which is the state here.  The body reads the
    receiver and never assigns through it. *)
Definition GetDiscoveryData : state SQLLineup DiscoveryData :=
  s <- get ;;
  ret (discovery_of s).

(** ** The SQL table *)

(** A Go [error] value.  [ErrNoRows] is [sql.ErrNoRows]; [ErrSQL] is the
    engine rejecting a statement; [ErrOther] stands for every other
    failure, the driver's as well as the channel store's. *)
Inductive error : Type :=
| ErrNoRows
| ErrSQL (msg : string)
| ErrOther (msg : string).

(** A row of the [lineup] table, one field per column, typed as the field
    of [SQLLineup] that scans it: every stored row is one that [sqlx] can
    scan, and [created_at] is the only nullable column. *)
Record Row : Type := mkRow {
  col_id                : Z;
  col_name              : string;
  col_ssdp              : bool;
  col_listen_address    : string;
  col_discovery_address : string;
  col_port              : Z;
  col_tuners            : Z;
  col_manufacturer      : string;
  col_model_name        : string;
  col_model_number      : string;
  col_firmware_name     : string;
  col_firmware_version  : string;
  col_device_id         : string;
  col_device_auth       : string;
  col_device_uuid       : string;
  col_created_at        : option Z
}.

(** Modelled from the spec: the declaration of the [lineup] table, which
    the migrations hold and this file does not.  The columns of the
    persisted row layout, in order; they are the sixteen that
    [baseLineupQuery] selects and that the [db] tags of [SQLLineup] name. *)
Definition lineup_columns : list string :=
  ["id"; "name"; "ssdp"; "listen_address"; "discovery_address"; "port";
   "tuners"; "manufacturer"; "model_name"; "model_number"; "firmware_name";
   "firmware_version"; "device_id"; "device_auth"; "device_uuid";
   "created_at"].

Definition is_column (c : string) : bool :=
  existsb (String.eqb c) lineup_columns.

Definition ids (rows : list Row) : list Z := map col_id rows.

(** Modelled from the spec: the key the [lineup] table gives a new row,
    [id] being its primary key, assigned by the store on creation and
    never reused: one more than the largest key in use, and 1 in an empty
    table. *)
Definition next_id (rows : list Row) : Z :=
  1 + fold_right Z.max 0 (ids rows).

(** Modelled from the spec: what the [lineup] table stores for an INSERT
    that names every column but [id] and [created_at]; the table assigns
    the key and stamps the creation time. *)
Definition insert_row (now : Z) (rows : list Row) (v : Row) : Row :=
  {| col_id := next_id rows;
     col_name := col_name v;
     col_ssdp := col_ssdp v;
     col_listen_address := col_listen_address v;
     col_discovery_address := col_discovery_address v;
     col_port := col_port v;
     col_tuners := col_tuners v;
     col_manufacturer := col_manufacturer v;
     col_model_name := col_model_name v;
     col_model_number := col_model_number v;
     col_firmware_name := col_firmware_name v;
     col_firmware_version := col_firmware_version v;
     col_device_id := col_device_id v;
     col_device_auth := col_device_auth v;
     col_device_uuid := col_device_uuid v;
     col_created_at := Some now |}.

(** The primary key is unique. *)
Definition table_ok (rows : list Row) : Prop := NoDup (ids rows).

(** [WHERE id = $1]. *)
Definition has_id (id : Z) (r : Row) : bool := col_id r =? id.

(** [SET c = v] for a text value: the assignment to make, when [c] is a
    text column of the table.  Storing a text in one of the other columns
    would break the typing of the rows; the file never asks for it and the
    engine below refuses it. *)
Definition set_text (c v : string) : option (Row -> Row) :=
  let upd (f : Row -> Row) := Some f in
  if String.eqb c "name" then
    upd (fun r => mkRow (col_id r) v (col_ssdp r) (col_listen_address r)
      (col_discovery_address r) (col_port r) (col_tuners r) (col_manufacturer r)
      (col_model_name r) (col_model_number r) (col_firmware_name r)
      (col_firmware_version r) (col_device_id r) (col_device_auth r)
      (col_device_uuid r) (col_created_at r))
  else if String.eqb c "listen_address" then
    upd (fun r => mkRow (col_id r) (col_name r) (col_ssdp r) v
      (col_discovery_address r) (col_port r) (col_tuners r) (col_manufacturer r)
      (col_model_name r) (col_model_number r) (col_firmware_name r)
      (col_firmware_version r) (col_device_id r) (col_device_auth r)
      (col_device_uuid r) (col_created_at r))
  else if String.eqb c "discovery_address" then
    upd (fun r => mkRow (col_id r) (col_name r) (col_ssdp r) (col_listen_address r)
      v (col_port r) (col_tuners r) (col_manufacturer r)
      (col_model_name r) (col_model_number r) (col_firmware_name r)
      (col_firmware_version r) (col_device_id r) (col_device_auth r)
      (col_device_uuid r) (col_created_at r))
  else if String.eqb c "manufacturer" then
    upd (fun r => mkRow (col_id r) (col_name r) (col_ssdp r) (col_listen_address r)
      (col_discovery_address r) (col_port r) (col_tuners r) v
      (col_model_name r) (col_model_number r) (col_firmware_name r)
      (col_firmware_version r) (col_device_id r) (col_device_auth r)
      (col_device_uuid r) (col_created_at r))
  else if String.eqb c "model_name" then
    upd (fun r => mkRow (col_id r) (col_name r) (col_ssdp r) (col_listen_address r)
      (col_discovery_address r) (col_port r) (col_tuners r) (col_manufacturer r)
      v (col_model_number r) (col_firmware_name r)
      (col_firmware_version r) (col_device_id r) (col_device_auth r)
      (col_device_uuid r) (col_created_at r))
  else if String.eqb c "model_number" then
    upd (fun r => mkRow (col_id r) (col_name r) (col_ssdp r) (col_listen_address r)
      (col_discovery_address r) (col_port r) (col_tuners r) (col_manufacturer r)
      (col_model_name r) v (col_firmware_name r)
      (col_firmware_version r) (col_device_id r) (col_device_auth r)
      (col_device_uuid r) (col_created_at r))
  else if String.eqb c "firmware_name" then
    upd (fun r => mkRow (col_id r) (col_name r) (col_ssdp r) (col_listen_address r)
      (col_discovery_address r) (col_port r) (col_tuners r) (col_manufacturer r)
      (col_model_name r) (col_model_number r) v
      (col_firmware_version r) (col_device_id r) (col_device_auth r)
      (col_device_uuid r) (col_created_at r))
  else if String.eqb c "firmware_version" then
    upd (fun r => mkRow (col_id r) (col_name r) (col_ssdp r) (col_listen_address r)
      (col_discovery_address r) (col_port r) (col_tuners r) (col_manufacturer r)
      (col_model_name r) (col_model_number r) (col_firmware_name r)
      v (col_device_id r) (col_device_auth r)
      (col_device_uuid r) (col_created_at r))
  else if String.eqb c "device_id" then
    upd (fun r => mkRow (col_id r) (col_name r) (col_ssdp r) (col_listen_address r)
      (col_discovery_address r) (col_port r) (col_tuners r) (col_manufacturer r)
      (col_model_name r) (col_model_number r) (col_firmware_name r)
      (col_firmware_version r) v (col_device_auth r)
      (col_device_uuid r) (col_created_at r))
  else if String.eqb c "device_auth" then
    upd (fun r => mkRow (col_id r) (col_name r) (col_ssdp r) (col_listen_address r)
      (col_discovery_address r) (col_port r) (col_tuners r) (col_manufacturer r)
      (col_model_name r) (col_model_number r) (col_firmware_name r)
      (col_firmware_version r) (col_device_id r) v
      (col_device_uuid r) (col_created_at r))
  else if String.eqb c "device_uuid" then
    upd (fun r => mkRow (col_id r) (col_name r) (col_ssdp r) (col_listen_address r)
      (col_discovery_address r) (col_port r) (col_tuners r) (col_manufacturer r)
      (col_model_name r) (col_model_number r) (col_firmware_name r)
      (col_firmware_version r) (col_device_id r) (col_device_auth r)
      v (col_created_at r))
  else None.

(** The statements the file sends, by shape.  [SELECT w] reads all sixteen
    columns, of every row or of the rows with the given key: it stands for
    [baseLineupQuery], with or without [WHERE L.id = $1], and for
    [SELECT * FROM lineup WHERE id = $1].  [INSERT v] names the fourteen
    columns other than [id] and [created_at].  [DELETE] and [UPDATE] act on
    the rows with the given key, and hand them back only under
    [RETURNING *]. *)
Inductive stmt : Type :=
| SELECT (where_id : option Z)
| INSERT (v : Row)
| DELETE (where_id : Z) (returning : bool)
| UPDATE (column value : string) (where_id : Z) (returning : bool).

(** What a statement leaves behind: the table, the rows of its result set
    and the key of the last inserted row. *)
Record outcome : Type := mkOutcome {
  out_rows   : list Row;
  out_result : list Row;
  out_rowid  : Z
}.

Definition update_where (id : Z) (f : Row -> Row) (rows : list Row) : list Row :=
  map (fun r => if has_id id r then f r else r) rows.

(** The engine: one statement against the table, at time [now]. *)
Definition run (q : stmt) (now : Z) (rows : list Row) : error + outcome :=
  match q with
  | SELECT None => inr (mkOutcome rows rows 0)
  | SELECT (Some id) => inr (mkOutcome rows (filter (has_id id) rows) 0)
  | INSERT v =>
      let r := insert_row now rows v in
      inr (mkOutcome (rows ++ [r])%list [] (col_id r))
  | DELETE id returning =>
      let gone := filter (has_id id) rows in
      inr (mkOutcome (filter (fun r => negb (has_id id r)) rows)
                     (if returning then gone else []) 0)
  | UPDATE c v id returning =>
      if is_column c then
        match set_text c v with
        | Some f =>
            let rows' := update_where id f rows in
            inr (mkOutcome rows'
                   (if returning then filter (has_id id) rows' else []) 0)
        | None => inl (ErrSQL ("datatype mismatch: " ++ c))
        end
      else inl (ErrSQL ("no such column: " ++ c))
  end.

(** ** sqlx over the table *)

(** The values a named statement takes from a struct, by [db] tag. *)
Definition row_of (l : SQLLineup) : Row :=
  {| col_id := ID l;
     col_name := Name l;
     col_ssdp := SSDP l;
     col_listen_address := ListenAddress l;
     col_discovery_address := DiscoveryAddress l;
     col_port := Port l;
     col_tuners := Tuners l;
     col_manufacturer := lu_Manufacturer l;
     col_model_name := lu_ModelName l;
     col_model_number := lu_ModelNumber l;
     col_firmware_name := FirmwareName l;
     col_firmware_version := FirmwareVersion l;
     col_device_id := DeviceID l;
     col_device_auth := DeviceAuth l;
     col_device_uuid := DeviceUUID l;
     col_created_at := CreatedAt l |}.

(** Scanning a row into a struct, by [db] tag: the sixteen tagged fields
    are overwritten, [Channels] has no tag and keeps its value. *)
Definition scan (r : Row) (dest : SQLLineup) : SQLLineup :=
  {| ID := col_id r;
     Name := col_name r;
     SSDP := col_ssdp r;
     ListenAddress := col_listen_address r;
     DiscoveryAddress := col_discovery_address r;
     Port := col_port r;
     Tuners := col_tuners r;
     lu_Manufacturer := col_manufacturer r;
     lu_ModelName := col_model_name r;
     lu_ModelNumber := col_model_number r;
     FirmwareName := col_firmware_name r;
     FirmwareVersion := col_firmware_version r;
     DeviceID := col_device_id r;
     DeviceAuth := col_device_auth r;
     DeviceUUID := col_device_uuid r;
     CreatedAt := col_created_at r;
     Channels := Channels dest |}.

(** [lineup.Channels = channels]. *)
Definition set_Channels (channels : list LineupChannel) (l : SQLLineup) : SQLLineup :=
  {| ID := ID l;
     Name := Name l;
     SSDP := SSDP l;
     ListenAddress := ListenAddress l;
     DiscoveryAddress := DiscoveryAddress l;
     Port := Port l;
     Tuners := Tuners l;
     lu_Manufacturer := lu_Manufacturer l;
     lu_ModelName := lu_ModelName l;
     lu_ModelNumber := lu_ModelNumber l;
     FirmwareName := FirmwareName l;
     FirmwareVersion := FirmwareVersion l;
     DeviceID := DeviceID l;
     DeviceAuth := DeviceAuth l;
     DeviceUUID := DeviceUUID l;
     CreatedAt := CreatedAt l;
     Channels := channels |}.

(** Everything the operations act on: the [lineup] table, the time of the
    database, the failures the driver is going to report (one entry per
    driver call still to come, [None] for a call that goes through; past
    the end of the list nothing fails) and the calls made to the channel
    store so far, oldest first, each with its two arguments. *)
Record World : Type := mkWorld {
  table  : list Row;
  clock  : Z;
  faults : list (option error);
  calls  : list (Z * bool)
}.

(** The driver's verdict on the next call. *)
Definition driver_fault : state World (option error) :=
  w <- get ;;
  match faults w with
  | [] => ret None
  | f :: rest =>
      put (mkWorld (table w) (clock w) rest (calls w)) ;;
      ret f
  end.

(** One statement sent to the database. *)
Definition exec (q : stmt) : state World (error + outcome) :=
  f <- driver_fault ;;
  match f with
  | Some e => ret (inl e)
  | None =>
      w <- get ;;
      match run q (clock w) (table w) with
      | inl e => ret (inl e)
      | inr out =>
          put (mkWorld (out_rows out) (clock w) (faults w) (calls w)) ;;
          ret (inr out)
      end
  end.

(** [db.SQL.Get(&dest, q, args...)]: the first row of the result set is
    scanned into [dest]; no row at all is [sql.ErrNoRows].  On an error
    [dest] is as it was. *)
Definition Get (dest : SQLLineup) (q : stmt) : state World (SQLLineup * option error) :=
  r <- exec q ;;
  ret match r with
      | inl e => (dest, Some e)
      | inr out =>
          match out_result out with
          | [] => (dest, Some ErrNoRows)
          | row :: _ => (scan row dest, None)
          end
      end.

(** [db.SQL.Select(&dest, q)]: every row of the result set is scanned into
    a fresh struct and appended to [dest]. *)
Definition Select (dest : list SQLLineup) (q : stmt) : state World (list SQLLineup * option error) :=
  r <- exec q ;;
  ret match r with
      | inl e => (dest, Some e)
      | inr out =>
          ((dest ++ map (fun row => scan row zero_SQLLineup) (out_result out))%list, None)
      end.

(** A [sql.Result]. *)
Record Result : Type := mkResult {
  lastInsertId : Z
}.

(** [db.SQL.NamedExec(q, arg)]: a result or an error, never both. *)
Definition NamedExec (q : stmt) : state World (error + Result) :=
  r <- exec q ;;
  ret match r with
      | inl e => inl e
      | inr out => inr (mkResult (out_rowid out))
      end.

(** [res.LastInsertId()]. *)
Definition LastInsertId (res : Result) : state World (Z * option error) :=
  f <- driver_fault ;;
  ret match f with
      | Some e => (0, Some e)
      | None => (lastInsertId res, None)
      end.

(** ** The channel store *)

(** [db.Collection.LineupChannel.GetChannelsForLineup], which another file
    of the package implements: its answer to each pair of arguments. *)
Variable GetChannelsForLineup : Z -> bool -> list LineupChannel * option error.

(** A call to the channel store, recorded in the world. *)
Definition call_GetChannelsForLineup (lineupID : Z) (active : bool)
  : state World (list LineupChannel * option error) :=
  w <- get ;;
  put (mkWorld (table w) (clock w) (faults w) (calls w ++ [(lineupID, active)])%list) ;;
  ret (GetChannelsForLineup lineupID active).

(** ** LineupDB *)

(** A [*SQLLineup] is an [option SQLLineup], [None] being [nil]; a
    [[]SQLLineup] result is an [option (list SQLLineup)] for the same
    reason. *)

(** InsertLineup inserts a new Lineup into the database. *)
Definition InsertLineup (lineupStruct : SQLLineup)
  : state World (option SQLLineup * option error) :=
  let lineup := zero_SQLLineup in
  res <- NamedExec (INSERT (row_of lineupStruct)) ;;
  match res with
  | inl err => ret (Some lineup, Some err)
  | inr res =>
      ' (rowID, rowIDErr) <- LastInsertId res ;;
      match rowIDErr with
      | Some e => ret (Some lineup, Some e)
      | None =>
          ' (lineup, err) <- Get lineup (SELECT (Some rowID)) ;;
          ret (Some lineup, err)
      end
  end.

(** GetLineupByID returns a single Lineup for the given ID. *)
Definition GetLineupByID (id : Z) (withChannels : bool)
  : state World (option SQLLineup * option error) :=
  ' (lineup, err) <- Get zero_SQLLineup (SELECT (Some id)) ;;
  if withChannels then
    ' (channels, channelsErr) <- call_GetChannelsForLineup (ID lineup) true ;;
    match channelsErr with
    | Some e => ret (None, Some e)
    | None => ret (Some (set_Channels channels lineup), err)
    end
  else ret (Some lineup, err).

(** DeleteLineup marks a lineup with the given ID as deleted. *)
Definition DeleteLineup (lineupID : Z)
  : state World (option SQLLineup * option error) :=
  ' (lineup, err) <- Get zero_SQLLineup (DELETE lineupID false) ;;
  ret (Some lineup, err).

(** UpdateLineup updates a lineup. *)
Definition UpdateLineup (lineupID : Z) (description : string)
  : state World (option SQLLineup * option error) :=
  ' (lineup, err) <- Get zero_SQLLineup (UPDATE "description" description lineupID true) ;;
  ret (Some lineup, err).

(** The loop of [GetEnabledLineups] over the lineups still to visit: the
    first failing call ends it with that error, otherwise each lineup is
    stored back with its channels. *)
Fixpoint hydrate (lineups : list SQLLineup) : state World (error + list SQLLineup) :=
  match lineups with
  | [] => ret (inr [])
  | lineup :: rest =>
      ' (channels, channelsErr) <- call_GetChannelsForLineup (ID lineup) true ;;
      match channelsErr with
      | Some e => ret (inl e)
      | None =>
          r <- hydrate rest ;;
          ret match r with
              | inl e => inl e
              | inr done => inr (set_Channels channels lineup :: done)
              end
      end
  end.

(** GetEnabledLineups returns all enabled lineups in the database. *)
Definition GetEnabledLineups (withChannels : bool)
  : state World (option (list SQLLineup) * option error) :=
  ' (lineups, err) <- Select [] (SELECT None) ;;
  if withChannels then
    r <- hydrate lineups ;;
    ret match r with
        | inl channelsErr => (None, Some channelsErr)
        | inr lineups => (Some lineups, err)
        end
  else ret (Some lineups, err).

(** ** Notions used to state the properties *)

(** The verdict on the next driver call, and the world once it is given. *)
Definition pending (w : World) : option error := hd None (faults w).

Definition consumed (w : World) : World :=
  mkWorld (table w) (clock w) (tl (faults w)) (calls w).

(** The world after one more call to the channel store. *)
Definition called (lineupID : Z) (active : bool) (w : World) : World :=
  mkWorld (table w) (clock w) (faults w) (calls w ++ [(lineupID, active)]).

(** The answer of the channel store carries an error. *)
Definition failing (c : Z * bool) : Prop :=
  snd (GetChannelsForLineup (fst c) (snd c)) <> None.

(** A lookup by key: the driver's failure if there is one, else the first
    row with that key, else [sql.ErrNoRows]. *)
Definition found (dest : SQLLineup) (id : Z) (w : World) : SQLLineup * option error :=
  match pending w with
  | Some e => (dest, Some e)
  | None =>
      match filter (has_id id) (table w) with
      | [] => (dest, Some ErrNoRows)
      | row :: _ => (scan row dest, None)
      end
  end.

(** The fields of a lineup that the INSERT statement names. *)
Definition supplied (l : SQLLineup) :=
  (Name l, SSDP l, ListenAddress l, DiscoveryAddress l, Port l, Tuners l,
   lu_Manufacturer l, lu_ModelName l, lu_ModelNumber l, FirmwareName l,
   FirmwareVersion l, DeviceID l, DeviceAuth l, DeviceUUID l).

(** The calls of a sequence that get made when the sequence is abandoned at
    the first call the channel store fails: that call is the last. *)
Fixpoint until_failure (cs : list (Z * bool)) : list (Z * bool) :=
  match cs with
  | [] => []
  | c :: rest =>
      match snd (GetChannelsForLineup (fst c) (snd c)) with
      | Some _ => [c]
      | None => c :: until_failure rest
      end
  end.

(** The call [GetEnabledLineups] makes for a row, and the lineup it builds
    from the row once the call has answered. *)
Definition call_for (row : Row) : Z * bool := (col_id row, true).

Definition hydrated (row : Row) : SQLLineup :=
  set_Channels (fst (GetChannelsForLineup (col_id row) true))
               (scan row zero_SQLLineup).

(** No driver call fails among the next [n]. *)
Definition healthy (n : nat) (w : World) : Prop :=
  Forall (fun f => f = None) (firstn n (faults w)).

End Lineup.

(** ** Sample data *)

Module Sample.

(** Channels are named by strings here. *)
Definition Lineup : Type := SQLLineup (LineupChannel := string).

Definition zero : Lineup := zero_SQLLineup.

(** A stored lineup with the given key and ssdp flag. *)
Definition stored (id : Z) (ssdp : bool) : Row :=
  {| col_id := id;
     col_name := "telly";
     col_ssdp := ssdp;
     col_listen_address := "0.0.0.0";
     col_discovery_address := "10.0.0.5";
     col_port := 6077;
     col_tuners := 2;
     col_manufacturer := "Silicondust";
     col_model_name := "HDHomeRun EXTEND";
     col_model_number := "HDTC-2US";
     col_firmware_name := "hdhomeruntc_atsc";
     col_firmware_version := "20150826";
     col_device_id := "12345678";
     col_device_auth := "telly";
     col_device_uuid := "12345678-AE2A-4E54-BBC9-33AF7D5D6A92";
     col_created_at := Some 1500000000 |}.

(** A lineup to insert: its [ID] and [CreatedAt] are not what the table is
    going to assign. *)
Definition input : Lineup :=
  {| ID := 99; Name := "attic"; SSDP := true; ListenAddress := "0.0.0.0";
     DiscoveryAddress := "192.168.1.7"; Port := 6078; Tuners := 4;
     lu_Manufacturer := "Silicondust"; lu_ModelName := "HDHomeRun EXTEND";
     lu_ModelNumber := "HDTC-2US"; FirmwareName := "hdhomeruntc_atsc";
     FirmwareVersion := "20150826"; DeviceID := "87654321";
     DeviceAuth := "telly"; DeviceUUID := "87654321-AE2A-4E54-BBC9-33AF7D5D6A92";
     CreatedAt := None; Channels := ["stale"] |}.

(** A database at time 1700000000 whose driver is healthy. *)
Definition world (rows : list Row) : World := mkWorld rows 1700000000 [] [].

(** A channel store that always answers, and one that is down for
    lineup 2. *)
Definition channels_ok (lineupID : Z) (active : bool) : list string * option error :=
  (["BBC One"; "BBC Two"], None).

Definition channels_down_for_2 (lineupID : Z) (active : bool)
  : list string * option error :=
  if lineupID =? 2 then ([], Some (ErrOther "channel store down"))
  else (["BBC One"], None).

(** A driver failure, and a database whose driver reports the given
    verdicts on its next calls. *)
Definition refused : error := ErrOther "connection refused".

Definition world_with (verdicts : list (option error)) (rows : list Row) : World :=
  mkWorld rows 1700000000 verdicts [].

End Sample.

(** * Properties *)

(** ** The discovery data *)

Section Discovery.

Context {LineupChannel : Type}.
Implicit Types (s : SQLLineup (LineupChannel := LineupChannel)) (d : DiscoveryData).

Lemma append_empty_r (a : string) : a ++ "" = a.
Proof. induction a as [|c a IH]; simpl; [reflexivity | now rewrite IH]. Qed.

Lemma append_assoc (a b c : string) : (a ++ b) ++ c = a ++ (b ++ c).
Proof. induction a as [|x a IH]; simpl; [reflexivity | now rewrite IH]. Qed.

(** The two formats of [GetDiscoveryData], and the one of [UPNP], as
    concatenations. *)
Lemma Sprintf_base (a : string) (p : Z) :
  Fmt.Sprintf "http://%s:%d" [Fmt.OStr a; Fmt.OInt p]
  = "http://" ++ a ++ ":" ++ Fmt.itoa p.
Proof. cbn. now rewrite append_empty_r. Qed.

Lemma Sprintf_lineup (b : string) :
  Fmt.Sprintf "%s/lineup.json" [Fmt.OStr b] = b ++ "/lineup.json".
Proof. reflexivity. Qed.

Lemma Sprintf_description (n m : string) :
  Fmt.Sprintf "%s %s" [Fmt.OStr n; Fmt.OStr m] = n ++ " " ++ m.
Proof. cbn. now rewrite append_empty_r. Qed.

Lemma GetDiscoveryData_run s :
  runState GetDiscoveryData s = (discovery_of s, s).
Proof. reflexivity. Qed.

(** C7: the descriptor derived from a lineup has baseURL "http://"
    followed by the discovery address, a colon and the port in decimal,
    and lineupURL equal to baseURL followed by "/lineup.json"; with
    address "10.0.0.5" and port 6077 these are "http://10.0.0.5:6077" and
    "http://10.0.0.5:6077/lineup.json". *)
Theorem GetDiscoveryData_urls s :
  let d := fst (runState GetDiscoveryData s) in
  dd_BaseURL d = "http://" ++ DiscoveryAddress s ++ ":" ++ Fmt.itoa (Port s)
  /\ dd_LineupURL d = dd_BaseURL d ++ "/lineup.json"
  /\ (DiscoveryAddress s = "10.0.0.5" -> Port s = 6077 ->
      dd_BaseURL d = "http://10.0.0.5:6077"
      /\ dd_LineupURL d = "http://10.0.0.5:6077/lineup.json").
Proof.
  rewrite GetDiscoveryData_run. unfold discovery_of.
  cbn [fst dd_BaseURL dd_LineupURL].
  rewrite Sprintf_lineup, Sprintf_base.
  split; [reflexivity | split; [reflexivity |]].
  intros Ha Hp. rewrite Ha, Hp. split; reflexivity.
Qed.

(** C8: the discovery document of a descriptor has specification version
    1.0, the constant device type, a model description made of the model
    number, one space and the model name, presentation URL "/", serial
    number the device id, UDN the device UUID, and the other fields copied
    from the descriptor; [UPNP] is a total function, with no error
    result. *)
Theorem UPNP_document d :
  let doc := UPNP d in
  Major (rd_SpecVersion doc) = 1
  /\ Minor (rd_SpecVersion doc) = 0
  /\ DeviceType (rd_Device doc) = "urn:schemas-upnp-org:device:MediaServer:1"
  /\ ModelDescription (rd_Device doc) = dd_ModelNumber d ++ " " ++ dd_ModelName d
  /\ Str (PresentationURL (rd_Device doc)) = "/"
  /\ SerialNumber (rd_Device doc) = dd_DeviceID d
  /\ UDN (rd_Device doc) = dd_DeviceUUID d
  /\ rd_URLBaseStr doc = dd_BaseURL d
  /\ FriendlyName (rd_Device doc) = dd_FriendlyName d
  /\ Manufacturer (rd_Device doc) = dd_Manufacturer d
  /\ ModelName (rd_Device doc) = dd_ModelName d
  /\ ModelNumber (rd_Device doc) = dd_ModelNumber d.
Proof.
  unfold UPNP. cbn -[Fmt.Sprintf]. rewrite Sprintf_description.
  repeat split.
Qed.

(** C9: deriving the descriptor leaves the lineup behind the receiver
    exactly as it was, and deriving it again from that lineup gives the
    same descriptor. *)
Theorem GetDiscoveryData_pure s :
  let (d1, s1) := runState GetDiscoveryData s in
  let (d2, s2) := runState GetDiscoveryData s1 in
  s1 = s /\ s2 = s /\ d2 = d1.
Proof. rewrite !GetDiscoveryData_run. repeat split. Qed.

End Discovery.

(** ** Rows and keys *)

(** The key of a new row is above every key in use, so the primary key
    stays unique. *)
Lemma largest_bound (keys : list Z) :
  0 <= fold_right Z.max 0 keys
  /\ forall k, In k keys -> k <= fold_right Z.max 0 keys.
Proof.
  induction keys as [|k' keys [IH0 IH]]; cbn [fold_right In].
  - split; [lia | tauto].
  - split; [lia|]. intros k [->|H]; [|specialize (IH k H)]; lia.
Qed.

Lemma ids_below_next (rows : list Row) r :
  In r rows -> col_id r < next_id rows.
Proof.
  intros H. unfold next_id.
  pose proof (proj2 (largest_bound (ids rows)) (col_id r) (in_map col_id _ _ H)).
  lia.
Qed.

Lemma next_id_positive (rows : list Row) : 0 < next_id rows.
Proof.
  unfold next_id. pose proof (proj1 (largest_bound (ids rows))). lia.
Qed.

Lemma next_id_fresh (rows : list Row) : ~ In (next_id rows) (ids rows).
Proof.
  unfold ids. rewrite in_map_iff. intros (r & E & H).
  apply ids_below_next in H. lia.
Qed.

Lemma filter_next_id (rows : list Row) :
  filter (has_id (next_id rows)) rows = [].
Proof.
  assert (H : forall r, In r rows -> has_id (next_id rows) r = false).
  { intros r Hr. apply ids_below_next in Hr. unfold has_id.
    apply Z.eqb_neq. lia. }
  revert H. generalize (next_id rows) as n.
  induction rows as [|r rows IH]; intros n H; cbn; [reflexivity|].
  rewrite (H r (or_introl eq_refl)). apply IH. intros; apply H; now right.
Qed.

Lemma insert_keeps_table_ok now (rows : list Row) v :
  table_ok rows -> table_ok (rows ++ [insert_row now rows v]).
Proof.
  unfold table_ok, ids. intros H. rewrite map_app. cbn [map].
  change (col_id (insert_row now rows v)) with (next_id rows).
  apply NoDup_app; [exact H | repeat constructor; intros [] |].
  intros k Hk [<-|[]]. now apply (next_id_fresh rows).
Qed.

(** The only row with the key of a fresh row is that row. *)
Lemma filter_inserted now (rows : list Row) v :
  filter (has_id (col_id (insert_row now rows v)))
         (rows ++ [insert_row now rows v])
  = [insert_row now rows v].
Proof.
  change (col_id (insert_row now rows v)) with (next_id rows).
  rewrite filter_app, filter_next_id. cbn. unfold has_id. cbn.
  now rewrite Z.eqb_refl.
Qed.

Lemma filter_absent id (rows : list Row) :
  ~ In id (ids rows) -> filter (has_id id) rows = [].
Proof.
  induction rows as [|r rows IH]; cbn; [reflexivity|]. intros H.
  unfold has_id at 1. destruct (Z.eqb_spec (col_id r) id) as [E|_].
  - destruct H. now left.
  - apply IH. intros K. apply H. now right.
Qed.

Lemma filter_unique (rows : list Row) r :
  table_ok rows -> In r rows -> filter (has_id (col_id r)) rows = [r].
Proof.
  unfold table_ok. induction rows as [|a rows IH]; cbn; [tauto|].
  intros Hnd Hin. inversion Hnd as [|k ks Hk Hks]; subst.
  unfold has_id at 1. destruct Hin as [->|Hin].
  - rewrite Z.eqb_refl. now rewrite (filter_absent _ _ Hk).
  - destruct (Z.eqb_spec (col_id a) (col_id r)) as [E|_].
    + destruct Hk. rewrite E. now apply in_map.
    + now apply IH.
Qed.

Lemma filter_first_in id (rows : list Row) row rest :
  filter (has_id id) rows = row :: rest -> In row rows /\ col_id row = id.
Proof.
  intros H.
  assert (K : In row (filter (has_id id) rows)) by (rewrite H; now left).
  apply filter_In in K. destruct K as [K1 K2]. split; [exact K1|].
  now apply Z.eqb_eq.
Qed.

(** Deleting by key: the rows with another key stay, in order. *)
Lemma others_absent id (rows : list Row) :
  ~ In id (ids rows) -> filter (fun r => negb (has_id id r)) rows = rows.
Proof.
  induction rows as [|r rows IH]; cbn; [reflexivity|]. intros H.
  unfold has_id at 1. destruct (Z.eqb_spec (col_id r) id) as [E|_].
  - destruct H. now left.
  - cbn. f_equal. apply IH. intros K. apply H. now right.
Qed.

Lemma others_in id (rows : list Row) r :
  In r (filter (fun r => negb (has_id id r)) rows)
  <-> In r rows /\ col_id r <> id.
Proof.
  rewrite filter_In. unfold has_id.
  destruct (Z.eqb_spec (col_id r) id); cbn; intuition congruence.
Qed.

Lemma others_lack id (rows : list Row) :
  ~ In id (ids (filter (fun r => negb (has_id id r)) rows)).
Proof.
  unfold ids. rewrite in_map_iff. intros (r & E & H).
  apply others_in in H. tauto.
Qed.

Lemma filter_keeps_table_ok (p : Row -> bool) (rows : list Row) :
  table_ok rows -> table_ok (filter p rows).
Proof.
  unfold table_ok, ids. induction rows as [|r rows IH]; cbn; [auto|].
  intros H. inversion H as [|k ks Hk Hks]; subst.
  destruct (p r); cbn; [constructor|]; auto.
  intros K. apply Hk. apply in_map_iff in K. destruct K as (x & E & Hx).
  apply filter_In in Hx. rewrite <- E. apply in_map. tauto.
Qed.

Lemma others_inserted now (rows : list Row) v :
  filter (fun r => negb (has_id (col_id (insert_row now rows v)) r))
         (rows ++ [insert_row now rows v])
  = rows.
Proof.
  change (col_id (insert_row now rows v)) with (next_id rows).
  rewrite filter_app, (others_absent _ _ (next_id_fresh rows)).
  cbn. unfold has_id. cbn. rewrite Z.eqb_refl. cbn. apply app_nil_r.
Qed.

(** ** The store *)

Section Store.

Context {LineupChannel : Type}.
Variable GetChannelsForLineup : Z -> bool -> list LineupChannel * option error.

Local Abbreviation Lineup := (SQLLineup (LineupChannel := LineupChannel)).
Local Abbreviation zero := (zero_SQLLineup (LineupChannel := LineupChannel)).

Lemma bind_run {S A B : Type} (c : state S A) (f : A -> state S B) (s : S) :
  runState (bind c f) s = let (v, s') := runState c s in runState (f v) s'.
Proof. reflexivity. Qed.

Lemma driver_fault_run w :
  runState driver_fault w = (pending w, consumed w).
Proof. destruct w as [t c [|f fs] k]; reflexivity. Qed.

Lemma exec_run q w :
  runState (exec q) w =
    match pending w with
    | Some e => (inl e, consumed w)
    | None =>
        match run q (clock w) (table w) with
        | inl e => (inl e, consumed w)
        | inr out =>
            (inr out, mkWorld (out_rows out) (clock w) (tl (faults w)) (calls w))
        end
    end.
Proof.
  destruct w as [t c [|[e|] fs] k]; cbn; try reflexivity;
    destruct (run q c t); reflexivity.
Qed.

Lemma Get_run (dest : Lineup) q w :
  runState (Get dest q) w =
    let (r, w') := runState (exec q) w in
    (match r with
     | inl e => (dest, Some e)
     | inr out =>
         match out_result out with
         | [] => (dest, Some ErrNoRows)
         | row :: _ => (scan row dest, None)
         end
     end, w').
Proof. cbn. destruct (runState (exec q) w). reflexivity. Qed.

(** The table is not written by a lookup. *)
Lemma lookup_run (dest : Lineup) id w :
  runState (Get dest (SELECT (Some id))) w = (found dest id w, consumed w).
Proof.
  rewrite Get_run, exec_run. unfold found. cbn [run].
  destruct (pending w); reflexivity.
Qed.

(** A failed lookup leaves the destination as it was. *)
Lemma found_failed (dest : Lineup) id w e :
  snd (found dest id w) = Some e -> found dest id w = (dest, Some e).
Proof.
  unfold found. destruct (pending w).
  - cbn. now intros [= ->].
  - destruct (filter (has_id id) (table w)); cbn; [now intros [= <-] | discriminate].
Qed.

Lemma GetLineupByID_run id (withChannels : bool) w :
  runState (GetLineupByID GetChannelsForLineup id withChannels) w =
    let '((lineup, err), w1) := runState (Get zero (SELECT (Some id))) w in
    if withChannels then
      (match GetChannelsForLineup (ID lineup) true with
       | (_, Some e) => (None, Some e)
       | (channels, None) => (Some (set_Channels channels lineup), err)
       end, called (ID lineup) true w1)
    else ((Some lineup, err), w1).
Proof.
  unfold GetLineupByID. rewrite bind_run.
  destruct (runState (Get zero (SELECT (Some id))) w) as [[lineup err] w1].
  destruct withChannels; cbn.
  - match goal with |- context [GetChannelsForLineup ?i true] =>
      destruct (GetChannelsForLineup i true) as [channels [e|]] end;
      reflexivity.
  - reflexivity.
Qed.

(** C6: without the flag [GetLineupByID] makes no call to the channel
    store; with it, it makes exactly one, for active channels only, and the
    lineup it returns carries exactly the channels that call returned (when
    the call fails there is no lineup, only the call's error). *)
Theorem GetLineupByID_hydration_flag id w :
  calls (snd (runState (GetLineupByID GetChannelsForLineup id false) w)) = calls w
  /\ exists lineupID,
       let '((res, err), w') :=
         runState (GetLineupByID GetChannelsForLineup id true) w in
       calls w' = (calls w ++ [(lineupID, true)])%list
       /\ match GetChannelsForLineup lineupID true with
          | (channels, None) => exists l, res = Some l /\ Channels l = channels
          | (_, Some e) => res = None /\ err = Some e
          end.
Proof.
  rewrite !GetLineupByID_run, lookup_run.
  destruct (found zero id w) as [lineup err].
  split; [reflexivity|].
  exists (ID lineup). cbn.
  destruct (GetChannelsForLineup (ID lineup) true) as [channels [e|]].
  - auto.
  - split; [reflexivity|]. eexists. split; reflexivity.
Qed.

(** C10, as the code has it: when the row lookup of [GetLineupByID] fails
    and channels are asked for, the channel store is still called, for
    lineup 0; if that call fails, its error is the one returned, with no
    lineup; if it succeeds, the lookup's error is returned together with a
    lineup whose sixteen row fields are zero and whose channels are the ones
    the call returned. *)
Theorem GetLineupByID_failed_lookup id w e0 :
  snd (fst (runState (Get zero (SELECT (Some id))) w)) = Some e0 ->
  let '((res, err), w') :=
    runState (GetLineupByID GetChannelsForLineup id true) w in
  calls w' = (calls w ++ [(0, true)])%list
  /\ match GetChannelsForLineup 0 true with
     | (_, Some e) => res = None /\ err = Some e
     | (channels, None) =>
         res = Some (set_Channels channels zero) /\ err = Some e0
     end.
Proof.
  rewrite GetLineupByID_run, lookup_run. cbn [fst snd].
  intros H. rewrite (found_failed _ _ _ _ H). cbn.
  destruct (GetChannelsForLineup 0 true) as [channels [e|]]; auto.
Qed.

(** *** Hydration *)

Lemma call_run lineupID active w :
  runState (call_GetChannelsForLineup GetChannelsForLineup lineupID active) w
  = (GetChannelsForLineup lineupID active, called lineupID active w).
Proof. reflexivity. Qed.

(** The calls one run of the loop makes: all but the last succeed, and the
    loop ends in an error exactly when the last one fails, with that
    error. *)
Lemma hydrate_run (lineups : list Lineup) w :
  exists made,
    snd (runState (hydrate GetChannelsForLineup lineups) w)
    = mkWorld (table w) (clock w) (faults w) (calls w ++ made)
    /\ match fst (runState (hydrate GetChannelsForLineup lineups) w) with
       | inl e =>
           exists before c,
             made = (before ++ [c])%list
             /\ Forall (fun c => ~ failing GetChannelsForLineup c) before
             /\ snd (GetChannelsForLineup (fst c) (snd c)) = Some e
       | inr done =>
           Forall (fun c => ~ failing GetChannelsForLineup c) made
           /\ made = map (fun l => (ID l, true)) lineups
           /\ done = map (fun l => set_Channels
                                     (fst (GetChannelsForLineup (ID l) true)) l)
                         lineups
       end.
Proof.
  revert w. induction lineups as [|lineup rest IH]; intros w.
  - exists []. cbn. rewrite app_nil_r. destruct w; auto.
  - cbn [hydrate]. rewrite bind_run, call_run.
    assert (F : failing GetChannelsForLineup (ID lineup, true)
                <-> snd (GetChannelsForLineup (ID lineup) true) <> None)
      by reflexivity.
    destruct (GetChannelsForLineup (ID lineup) true) as [channels [e|]] eqn:E.
    + exists [(ID lineup, true)]. cbn. split; [reflexivity|].
      exists [], (ID lineup, true). cbn. rewrite E. auto.
    + rewrite bind_run.
      destruct (IH (called (ID lineup) true w)) as (made & Hw & Hr).
      destruct (runState (hydrate GetChannelsForLineup rest)
                  (called (ID lineup) true w)) as [r w'].
      cbn [fst snd] in *. exists ((ID lineup, true) :: made). split.
      * rewrite Hw. cbn. now rewrite <- app_assoc.
      * assert (N : ~ failing GetChannelsForLineup (ID lineup, true)) by (rewrite F; cbn; tauto).
        destruct r as [e|done]; cbn.
        -- destruct Hr as (before & c & -> & Hb & Hc).
           exists ((ID lineup, true) :: before), c. auto.
        -- destruct Hr as (Hm & -> & ->). cbn. rewrite E. auto.
Qed.

Lemma GetEnabledLineups_run (withChannels : bool) w :
  runState (GetEnabledLineups GetChannelsForLineup withChannels) w =
    let '((lineups, err), w1) := runState (Select [] (SELECT None)) w in
    if withChannels then
      let (r, w2) := runState (hydrate GetChannelsForLineup lineups) w1 in
      (match r with
       | inl channelsErr => (None, Some channelsErr)
       | inr lineups => (Some lineups, err)
       end, w2)
    else ((Some lineups, err), w1).
Proof.
  unfold GetEnabledLineups. rewrite bind_run.
  destruct (runState (Select [] (SELECT None)) w) as [[lineups err] w1].
  destruct withChannels; [|reflexivity].
  rewrite bind_run. destruct (runState (hydrate _ lineups) w1). reflexivity.
Qed.

(** The unfiltered read: the driver's failure if there is one, else every
    row of the table, in the table's order. *)
Lemma select_all_run w :
  runState (Select [] (SELECT None)) w =
    (match pending w with
     | Some e => (@nil Lineup, Some e)
     | None => (map (fun row => scan row zero) (table w), None)
     end, consumed w).
Proof.
  unfold Select. rewrite bind_run, exec_run. cbn [run].
  destruct (pending w); reflexivity.
Qed.

(** C5: with channels asked for, as soon as one call to the channel store
    made by [GetLineupByID] or by [GetEnabledLineups] fails, the operation
    returns that call's error and no lineup at all. *)
Theorem hydration_failure_aborts w made c :
  In c made -> failing GetChannelsForLineup c ->
  (forall id res err w',
      runState (GetLineupByID GetChannelsForLineup id true) w = ((res, err), w') ->
      calls w' = (calls w ++ made)%list ->
      res = None /\ err = snd (GetChannelsForLineup (fst c) (snd c)))
  /\ (forall res err w',
      runState (GetEnabledLineups GetChannelsForLineup true) w = ((res, err), w') ->
      calls w' = (calls w ++ made)%list ->
      res = None /\ err = snd (GetChannelsForLineup (fst c) (snd c))).
Proof.
  intros Hin Hfail. split.
  - intros id res err w'. rewrite GetLineupByID_run, lookup_run.
    destruct (found zero id w) as [lineup e0]. cbn [called calls].
    intros H Hc. inversion H as [[Hr Hw]]. rewrite <- Hw in Hc. cbn in Hc.
    apply app_inv_head in Hc. subst made.
    destruct Hin as [<-|[]]. unfold failing in Hfail. cbn [fst snd] in *.
    destruct (GetChannelsForLineup (ID lineup) true) as [channels [e|]];
      cbn in *; [inversion Hr; auto | congruence].
  - intros res err w'. rewrite GetEnabledLineups_run, select_all_run.
    set (sel := match pending w with Some e => _ | None => _ end).
    destruct sel as [lineups e0].
    destruct (hydrate_run lineups (consumed w)) as (made' & Hw & Hr).
    destruct (runState (hydrate GetChannelsForLineup lineups) (consumed w))
      as [r w2].
    cbn [fst snd] in *. intros H Hc. inversion H as [[Hres Hw']].
    rewrite <- Hw', Hw in Hc. cbn in Hc. apply app_inv_head in Hc. subst made'.
    destruct r as [e|done].
    + destruct Hr as (before & c' & -> & Hb & Hc').
      apply in_app_or in Hin. destruct Hin as [Hin|[<-|[]]].
      * rewrite Forall_forall in Hb. now destruct (Hb _ Hin).
      * inversion Hres. auto.
    + destruct Hr as (Hm & _). rewrite Forall_forall in Hm.
      now destruct (Hm _ Hin).
Qed.

(** *** Reading the enabled lineups *)

(** Without a driver failure, [GetEnabledLineups] returns one lineup per
    row of the table, whatever the row's [ssdp] flag. *)
Lemma GetEnabledLineups_all_rows w :
  pending w = None ->
  fst (runState (GetEnabledLineups GetChannelsForLineup false) w)
  = (Some (map (fun row => scan row zero) (table w)), None).
Proof.
  intros H. rewrite GetEnabledLineups_run, select_all_run, H. reflexivity.
Qed.

(** *** Deleting and updating *)

(** [DeleteLineup] never hands a row back: its statement has no
    [RETURNING] clause, so the result set that [Get] scans is empty. *)
Lemma DeleteLineup_run lineupID w :
  runState (DeleteLineup (LineupChannel := LineupChannel) lineupID) w =
    match pending w with
    | Some e => ((Some zero, Some e), consumed w)
    | None =>
        ((Some zero, Some ErrNoRows),
         mkWorld (filter (fun r => negb (has_id lineupID r)) (table w))
                 (clock w) (tl (faults w)) (calls w))
    end.
Proof.
  unfold DeleteLineup. rewrite bind_run, Get_run, exec_run. cbn [run].
  destruct (pending w); reflexivity.
Qed.

(** [description] is not a column of the table. *)
Lemma description_not_a_column : is_column "description" = false.
Proof. reflexivity. Qed.

(** [UpdateLineup] fails on every input and writes nothing. *)
Lemma UpdateLineup_run lineupID description w :
  exists e,
    runState (UpdateLineup (LineupChannel := LineupChannel) lineupID description) w
    = ((Some zero, Some e), consumed w).
Proof.
  unfold UpdateLineup. rewrite bind_run, Get_run, exec_run.
  cbn [run]. rewrite description_not_a_column.
  destruct (pending w); eexists; reflexivity.
Qed.

(** *** Inserting *)

Lemma row_of_scan (row : Row) (dest : Lineup) : row_of (scan row dest) = row.
Proof. destruct row; reflexivity. Qed.

(** A successful [InsertLineup], step by step: no driver call failed, one
    row was appended and the lineup returned is that row, scanned. *)
Lemma InsertLineup_success l w r w' :
  runState (InsertLineup l) w = ((Some r, None), w') ->
  let row := insert_row (clock w) (table w) (row_of l) in
  r = scan row zero /\ table w' = (table w ++ [row])%list.
Proof.
  unfold InsertLineup, NamedExec, LastInsertId.
  rewrite !bind_run, exec_run. cbn [run].
  destruct (pending w); [discriminate|]. cbn [runState ret Monad_state].
  rewrite !bind_run, driver_fault_run.
  match goal with |- context [pending ?w1] => destruct (pending w1) end;
    cbn [runState ret Monad_state]; [discriminate|].
  rewrite bind_run, lookup_run. unfold found.
  match goal with |- context [pending ?w2] => destruct (pending w2) end;
    cbn [runState ret Monad_state]; [discriminate|].
  cbn [table consumed col_id lastInsertId out_rowid out_rows].
  rewrite filter_inserted.
  cbn. intros H. inversion H. auto.
Qed.

(** C4: a successful [InsertLineup] returns the row it has just stored, as
    read back from the table: it agrees with the input on every field the
    statement names, its id is the new key the table assigned (not 0, and
    not the key of an older row) and its creation time is set; fetching by
    that id returns the very same lineup. *)
Theorem InsertLineup_roundtrip l w r w' :
  runState (InsertLineup l) w = ((Some r, None), w') ->
  table w' = (table w ++ [row_of r])%list
  /\ supplied r = supplied l
  /\ ID r <> 0 /\ ~ In (ID r) (ids (table w))
  /\ CreatedAt r <> None
  /\ forall w2, table w2 = table w' -> pending w2 = None ->
       fst (runState (GetLineupByID GetChannelsForLineup (ID r) false) w2)
       = (Some r, None).
Proof.
  intros H. apply InsertLineup_success in H. cbv zeta in H.
  destruct H as [-> Hw']. rewrite row_of_scan.
  split; [exact Hw'|]. split; [reflexivity|].
  split; [|split; [|split]].
  - change (next_id (table w) <> 0).
    pose proof (next_id_positive (table w)). lia.
  - apply next_id_fresh.
  - discriminate.
  - intros w2 Ht Hp. rewrite GetLineupByID_run, lookup_run. unfold found.
    rewrite Hp, Ht, Hw'. cbn [ID scan].
    rewrite filter_inserted. reflexivity.
Qed.

End Store.

(** ** The reads *)

Section Operations.

Context {LineupChannel : Type}.
Variable GetChannelsForLineup : Z -> bool -> list LineupChannel * option error.

Local Abbreviation Lineup := (SQLLineup (LineupChannel := LineupChannel)).
Local Abbreviation zero := (zero_SQLLineup (LineupChannel := LineupChannel)).

(** *** GetLineupByID *)

(** X1: In a table whose keys are unique, with a healthy driver, the lookup of
    a stored row by its key returns that row and no error; with channels it
    asks the channel store about that very key and returns the row with the
    channels of the answer, or nothing but the store's error. *)
Theorem GetLineupByID_stored w r :
  table_ok (table w) -> In r (table w) -> pending w = None ->
  fst (runState (GetLineupByID GetChannelsForLineup (col_id r) false) w)
  = (Some (scan r zero), None)
  /\ let '((res, err), w') :=
       runState (GetLineupByID GetChannelsForLineup (col_id r) true) w in
     calls w' = (calls w ++ [(col_id r, true)])%list
     /\ match GetChannelsForLineup (col_id r) true with
        | (channels, None) =>
            res = Some (set_Channels channels (scan r zero)) /\ err = None
        | (_, Some e) => res = None /\ err = Some e
        end.
Proof.
  intros Hok Hin Hp. rewrite !GetLineupByID_run, lookup_run. unfold found.
  rewrite Hp, (filter_unique _ _ Hok Hin). split; [reflexivity|].
  cbn. destruct (GetChannelsForLineup (col_id r) true) as [channels [e|]]; auto.
Qed.

Lemma found_absent (dest : Lineup) id w :
  pending w = None -> ~ In id (ids (table w)) ->
  found dest id w = (dest, Some ErrNoRows).
Proof.
  intros Hp Hid. unfold found. now rewrite Hp, (filter_absent _ _ Hid).
Qed.

(** X2: With a healthy driver, the lookup of a key that no row has returns
    [sql.ErrNoRows] together with a pointer to the zero lineup, not a nil
    pointer. *)
Theorem GetLineupByID_absent w id :
  pending w = None -> ~ In id (ids (table w)) ->
  fst (runState (GetLineupByID GetChannelsForLineup id false) w)
  = (Some zero, Some ErrNoRows).
Proof.
  intros Hp Hid. rewrite GetLineupByID_run, lookup_run.
  now rewrite (found_absent _ _ _ Hp Hid).
Qed.

(** X3: A lineup that [GetLineupByID] returns without an error is a row of the
    table and has the key asked for; without the flag its channels are
    empty. *)
Theorem GetLineupByID_sound id (withChannels : bool) w l w' :
  runState (GetLineupByID GetChannelsForLineup id withChannels) w
  = ((Some l, None), w') ->
  ID l = id /\ In (row_of l) (table w)
  /\ (withChannels = false -> Channels l = []).
Proof.
  rewrite GetLineupByID_run, lookup_run. unfold found.
  destruct (pending w) as [e|].
  - destruct withChannels; cbn;
      [destruct (GetChannelsForLineup 0 true) as [channels [e'|]]|];
      intros H; inversion H.
  - destruct (filter (has_id id) (table w)) as [|row rest] eqn:F.
    + destruct withChannels; cbn;
        [destruct (GetChannelsForLineup 0 true) as [channels [e'|]]|];
        intros H; inversion H.
    + destruct (filter_first_in _ _ _ _ F) as [Hin Hid].
      destruct withChannels; cbn.
      * destruct (GetChannelsForLineup (col_id row) true) as [channels [e'|]];
          intros H; inversion H; subst. cbn.
        repeat split; [| discriminate]. now destruct row.
      * intros H; inversion H; subst. cbn. rewrite row_of_scan. auto.
Qed.

(** X4: Without the flag, [GetLineupByID] returns a non-nil pointer in every
    case, and when it returns an error the lineup behind the pointer is the
    zero lineup. *)
Theorem GetLineupByID_error_payload id w :
  exists l err,
    fst (runState (GetLineupByID GetChannelsForLineup id false) w) = (Some l, err)
    /\ (err <> None -> l = zero).
Proof.
  rewrite GetLineupByID_run, lookup_run. unfold found.
  destruct (pending w) as [e|];
    [|destruct (filter (has_id id) (table w)) as [|row rest]];
    do 2 eexists; (split; [reflexivity|]); cbn; congruence.
Qed.

(** *** The reads write nothing *)

Lemma hydrate_frame (lineups : list Lineup) w :
  let w' := snd (runState (hydrate GetChannelsForLineup lineups) w) in
  table w' = table w /\ clock w' = clock w /\ faults w' = faults w.
Proof.
  destruct (hydrate_run GetChannelsForLineup lineups w) as (made & -> & _).
  cbn. auto.
Qed.

(** X5: [GetLineupByID] and [GetEnabledLineups] leave the table as it is and
    make one driver call each, failed or not: neither retries. *)
Theorem reads_leave_table (withChannels : bool) w :
  (forall id,
     let w' := snd (runState (GetLineupByID GetChannelsForLineup id withChannels) w) in
     table w' = table w /\ faults w' = tl (faults w))
  /\ (let w' := snd (runState (GetEnabledLineups GetChannelsForLineup withChannels) w) in
      table w' = table w /\ faults w' = tl (faults w)).
Proof.
  split.
  - intros id. rewrite GetLineupByID_run, lookup_run.
    destruct (found zero id w) as [lineup err]. destruct withChannels; cbn; auto.
  - rewrite GetEnabledLineups_run, select_all_run.
    set (sel := match pending w with Some e => _ | None => _ end).
    destruct sel as [lineups err]. destruct withChannels; [|cbn; auto].
    pose proof (hydrate_frame lineups (consumed w)) as H. cbv zeta in H.
    destruct (runState (hydrate GetChannelsForLineup lineups) (consumed w))
      as [r w2]. cbn in *. destruct H as (-> & _ & ->). auto.
Qed.

(** *** GetEnabledLineups *)

(** The loop calls the channel store for the lineups in order, up to the
    first call that fails. *)
Lemma hydrate_calls (lineups : list Lineup) w :
  calls (snd (runState (hydrate GetChannelsForLineup lineups) w))
  = (calls w
     ++ until_failure GetChannelsForLineup (map (fun l => (ID l, true)) lineups))%list.
Proof.
  revert w. induction lineups as [|lineup rest IH]; intros w.
  - cbn. now rewrite app_nil_r.
  - cbn [hydrate map until_failure fst snd]. rewrite bind_run, call_run.
    destruct (GetChannelsForLineup (ID lineup) true) as [channels [e|]];
      cbn [snd]; [reflexivity|].
    rewrite bind_run. specialize (IH (called (ID lineup) true w)).
    destruct (runState (hydrate GetChannelsForLineup rest)
                (called (ID lineup) true w)) as [r w'].
    cbn [snd] in *. cbn. rewrite IH. cbn. now rewrite <- app_assoc.
Qed.

(** When every call succeeds the loop attaches to each lineup the channels
    of its own call. *)
Lemma hydrate_all (lineups : list Lineup) w :
  (forall l, In l lineups -> snd (GetChannelsForLineup (ID l) true) = None) ->
  fst (runState (hydrate GetChannelsForLineup lineups) w)
  = inr (map (fun l => set_Channels (fst (GetChannelsForLineup (ID l) true)) l)
             lineups).
Proof.
  revert w. induction lineups as [|lineup rest IH]; intros w H; [reflexivity|].
  cbn [hydrate map]. rewrite bind_run, call_run.
  pose proof (H lineup (or_introl eq_refl)) as E.
  destruct (GetChannelsForLineup (ID lineup) true) as [channels [e|]];
    cbn in E; [discriminate|].
  rewrite bind_run.
  specialize (IH (called (ID lineup) true w) (fun l K => H l (or_intror K))).
  destruct (runState (hydrate GetChannelsForLineup rest)
              (called (ID lineup) true w)) as [r w'].
  cbn [fst] in IH. subst r. reflexivity.
Qed.

Lemma scanned_calls (rows : list Row) :
  map (fun l : Lineup => (ID l, true)) (map (fun row => scan row zero) rows)
  = map call_for rows.
Proof. rewrite map_map. reflexivity. Qed.

(** X6: With a healthy driver and without the flag, [GetEnabledLineups] returns
    one lineup per row of the table, in the order of the table and with no
    channels, whatever the rows' [ssdp] flags, and calls the channel store
    for none of them. *)
Theorem GetEnabledLineups_without_channels w :
  pending w = None ->
  runState (GetEnabledLineups GetChannelsForLineup false) w
  = ((Some (map (fun row => scan row zero) (table w)), None), consumed w).
Proof.
  intros H. now rewrite GetEnabledLineups_run, select_all_run, H.
Qed.

(** X7: With a healthy driver and a channel store that answers for every
    stored key, [GetEnabledLineups] with the flag returns every row of the
    table, in order, each with the channels returned for its own key. *)
Theorem GetEnabledLineups_hydrates_all w :
  pending w = None ->
  (forall row, In row (table w) ->
     snd (GetChannelsForLineup (col_id row) true) = None) ->
  fst (runState (GetEnabledLineups GetChannelsForLineup true) w)
  = (Some (map (hydrated GetChannelsForLineup) (table w)), None).
Proof.
  intros Hp Hok. rewrite GetEnabledLineups_run, select_all_run, Hp.
  pose proof (hydrate_all (map (fun row => scan row zero) (table w)) (consumed w))
    as H.
  destruct (runState (hydrate GetChannelsForLineup _) (consumed w)) as [r w2].
  cbn [fst] in *. rewrite H.
  - now rewrite map_map.
  - intros l Hl. apply in_map_iff in Hl. destruct Hl as (row & <- & Hrow).
    now apply Hok.
Qed.

(** X8: With the flag, [GetEnabledLineups] calls the channel store once per
    row, in the order of the table and for active channels only, and stops
    at the first call that fails: the rows after it are never asked about. *)
Theorem GetEnabledLineups_calls w :
  pending w = None ->
  calls (snd (runState (GetEnabledLineups GetChannelsForLineup true) w))
  = (calls w ++ until_failure GetChannelsForLineup (map call_for (table w)))%list.
Proof.
  intros Hp. rewrite GetEnabledLineups_run, select_all_run, Hp.
  pose proof (hydrate_calls (map (fun row => scan row zero) (table w)) (consumed w))
    as H.
  destruct (runState (hydrate GetChannelsForLineup _) (consumed w)) as [r w2].
  cbn [snd] in *. now rewrite H, scanned_calls.
Qed.

(** X9: When the driver fails the query, [GetEnabledLineups] returns the
    driver's error with an empty, non-nil slice, and makes no call to the
    channel store, with or without the flag. *)
Theorem GetEnabledLineups_driver_failure (withChannels : bool) w e :
  pending w = Some e ->
  runState (GetEnabledLineups GetChannelsForLineup withChannels) w
  = ((Some [], Some e), consumed w).
Proof.
  intros Hp. rewrite GetEnabledLineups_run, select_all_run, Hp.
  destruct withChannels; [|reflexivity].
  cbn. destruct w; reflexivity.
Qed.

End Operations.

(** ** The writes *)

Section Writes.

Context {LineupChannel : Type}.

Local Abbreviation Lineup := (SQLLineup (LineupChannel := LineupChannel)).
Local Abbreviation zero := (zero_SQLLineup (LineupChannel := LineupChannel)).

(** *** InsertLineup *)

Lemma healthy_step n w :
  healthy (S n) w <-> pending w = None /\ healthy n (consumed w).
Proof.
  unfold healthy, pending, consumed. destruct (faults w) as [|f fs]; cbn.
  - destruct n; cbn; intuition constructor.
  - split.
    + intros H. inversion H; subst. auto.
    + intros [-> H]. now constructor.
Qed.

(** The row a lineup is stored as. *)
Local Abbreviation new_row l w := (insert_row (clock w) (table w) (row_of l)).

(** The three steps of [InsertLineup], in terms of the driver's verdicts. *)
Lemma InsertLineup_run (l : Lineup) w :
  runState (InsertLineup l) w =
    match pending w with
    | Some e => ((Some zero, Some e), consumed w)
    | None =>
        let w1 := mkWorld (table w ++ [new_row l w]) (clock w)
                          (tl (faults w)) (calls w) in
        match pending w1 with
        | Some e => ((Some zero, Some e), consumed w1)
        | None =>
            match pending (consumed w1) with
            | Some e => ((Some zero, Some e), consumed (consumed w1))
            | None => ((Some (scan (new_row l w) zero), None),
                       consumed (consumed w1))
            end
        end
    end.
Proof.
  unfold InsertLineup, NamedExec, LastInsertId.
  rewrite !bind_run, exec_run. cbn [run].
  destruct (pending w); [reflexivity|]. cbn [runState ret Monad_state].
  rewrite !bind_run, driver_fault_run. cbv zeta.
  cbn [out_rows out_rowid lastInsertId].
  match goal with |- context [pending ?w1] => destruct (pending w1) end;
    cbn [runState ret Monad_state]; [reflexivity|].
  rewrite bind_run, lookup_run. unfold found.
  match goal with |- context [pending ?w2] => destruct (pending w2) end;
    cbn [runState ret Monad_state]; [reflexivity|].
  cbn [table consumed col_id lastInsertId out_rowid out_rows].
  now rewrite filter_inserted.
Qed.

Lemma healthy_three w :
  healthy 3 w ->
  pending w = None /\ pending (consumed w) = None
  /\ pending (consumed (consumed w)) = None.
Proof.
  intros H. apply healthy_step in H. destruct H as [H1 H].
  apply healthy_step in H. destruct H as [H2 H].
  apply healthy_step in H. destruct H as [H3 _]. auto.
Qed.

Lemma healthy_more n m w : healthy (n + m) w -> healthy n w.
Proof.
  revert w. induction n as [|n IH]; intros w H; [constructor|].
  apply healthy_step in H. destruct H as [H1 H].
  apply healthy_step. split; [exact H1 | now apply IH].
Qed.

Lemma healthy_later n m w :
  healthy (n + m) w -> healthy m (Nat.iter n consumed w).
Proof.
  revert w. induction n as [|n IH]; intros w H; [exact H|].
  apply healthy_step in H. destruct H as [_ H].
  rewrite Nat.iter_succ_r. now apply IH.
Qed.

(** The insert that no driver failure disturbs. *)
Lemma InsertLineup_quiet (l : Lineup) w :
  pending w = None -> pending (consumed w) = None ->
  pending (consumed (consumed w)) = None ->
  runState (InsertLineup l) w
  = ((Some (scan (new_row l w) zero), None),
     mkWorld (table w ++ [new_row l w]) (clock w)
             (tl (tl (tl (faults w)))) (calls w)).
Proof.
  intros H1 H2 H3.
  rewrite InsertLineup_run, H1. cbv zeta.
  change (pending (mkWorld (table w ++ [new_row l w]) (clock w)
                           (tl (faults w)) (calls w)))
    with (pending (consumed w)).
  rewrite H2.
  change (pending (consumed (mkWorld (table w ++ [new_row l w]) (clock w)
                                     (tl (faults w)) (calls w))))
    with (pending (consumed (consumed w))).
  now rewrite H3.
Qed.

(** X10: When the driver lets the three calls of [InsertLineup] through, the
    insert succeeds: one row is appended, with the fields of the input that
    the statement names, and the lineup returned is that row; the channel
    store is not called. *)
Theorem InsertLineup_healthy (l : Lineup) w :
  healthy 3 w ->
  runState (InsertLineup l) w
  = ((Some (scan (new_row l w) zero), None),
     mkWorld (table w ++ [new_row l w]) (clock w)
             (tl (tl (tl (faults w)))) (calls w)).
Proof.
  intros H. destruct (healthy_three w H) as (H1 & H2 & H3).
  now apply InsertLineup_quiet.
Qed.

(** X11: When the driver fails the INSERT itself, [InsertLineup] returns that
    error with a pointer to the zero lineup, and the table is as before. *)
Theorem InsertLineup_rejected (l : Lineup) w e :
  pending w = Some e ->
  runState (InsertLineup l) w = ((Some zero, Some e), consumed w).
Proof. intros H. rewrite InsertLineup_run. rewrite H. reflexivity. Qed.

(** X12: When the INSERT goes through and a later step fails (reading the new
    key, or reading the row back), [InsertLineup] returns that error with
    the zero lineup although the row has been stored. *)
Theorem InsertLineup_late_failure (l : Lineup) w e :
  pending w = None ->
  pending (consumed w) = Some e
  \/ (pending (consumed w) = None /\ pending (consumed (consumed w)) = Some e) ->
  let (res, w') := runState (InsertLineup l) w in
  res = (Some zero, Some e)
  /\ table w' = (table w ++ [new_row l w])%list.
Proof.
  intros H1 H. rewrite InsertLineup_run, H1. cbv zeta.
  change (pending (mkWorld (table w ++ [new_row l w]) (clock w)
                           (tl (faults w)) (calls w)))
    with (pending (consumed w)).
  change (pending (consumed (mkWorld (table w ++ [new_row l w]) (clock w)
                                     (tl (faults w)) (calls w))))
    with (pending (consumed (consumed w))).
  destruct H as [H2|[H2 H3]]; rewrite H2; [|rewrite H3]; split; reflexivity.
Qed.

(** X13: Whatever happens, [InsertLineup] leaves the rows already stored where
    they are, appends at most one row, keeps the keys unique and makes no
    call to the channel store. *)
Theorem InsertLineup_frame (l : Lineup) w :
  let w' := snd (runState (InsertLineup l) w) in
  (table w' = table w \/ table w' = (table w ++ [new_row l w])%list)
  /\ calls w' = calls w
  /\ (table_ok (table w) -> table_ok (table w')).
Proof.
  rewrite InsertLineup_run. cbv zeta.
  assert (K : table_ok (table w) -> table_ok (table w ++ [new_row l w]))
    by apply insert_keeps_table_ok.
  destruct (pending w); [cbn; auto|].
  match goal with |- context [pending ?w1] => destruct (pending w1) end;
    [cbn; auto|].
  match goal with |- context [pending ?w2] => destruct (pending w2) end;
    cbn; auto.
Qed.

(** X14: The [ID], [CreatedAt] and [Channels] of the lineup handed to
    [InsertLineup] play no part: two inputs that agree on the fourteen
    named fields give the same result and the same table. *)
Theorem InsertLineup_ignores_id (l1 l2 : Lineup) w :
  supplied l1 = supplied l2 ->
  runState (InsertLineup l1) w = runState (InsertLineup l2) w.
Proof.
  intros H.
  assert (E : new_row l1 w = new_row l2 w).
  { unfold supplied in H. inversion H. unfold insert_row. cbn. congruence. }
  rewrite !InsertLineup_run. cbv zeta. now rewrite E.
Qed.

(** X15: Two inserts in a row, with the driver healthy throughout, return
    lineups with different ids, the second above the first. *)
Theorem InsertLineup_twice (l1 l2 : Lineup) w :
  healthy 6 w ->
  let (res1, w1) := runState (InsertLineup l1) w in
  let (res2, w2) := runState (InsertLineup l2) w1 in
  exists r1 r2,
    res1 = (Some r1, None) /\ res2 = (Some r2, None) /\ ID r1 < ID r2.
Proof.
  intros H.
  destruct (healthy_three w (healthy_more 3 3 w H)) as (H1 & H2 & H3).
  rewrite (InsertLineup_quiet l1 w H1 H2 H3).
  pose proof (healthy_later 3 3 w H) as K.
  match goal with |- context [runState (InsertLineup l2) ?w1] =>
    assert (K' : healthy 3 w1) by exact K end.
  destruct (healthy_three _ K') as (K1 & K2 & K3).
  rewrite (InsertLineup_quiet l2 _ K1 K2 K3).
  do 2 eexists. split; [reflexivity | split; [reflexivity|]].
  cbn [ID scan table clock]. apply ids_below_next.
  apply in_or_app. right. now left.
Qed.

(** *** DeleteLineup *)

(** X16: With a healthy driver, [DeleteLineup] removes the rows that have the
    key, and only those: the other rows stay, no row has the key
    afterwards and the keys stay unique.  What it returns is the zero
    lineup with [sql.ErrNoRows], whether or not a row was removed. *)
Theorem DeleteLineup_removes lineupID w :
  pending w = None ->
  let (res, w') := runState (DeleteLineup (LineupChannel := LineupChannel) lineupID) w in
  res = (Some zero, Some ErrNoRows)
  /\ (forall r, In r (table w') <-> In r (table w) /\ col_id r <> lineupID)
  /\ ~ In lineupID (ids (table w'))
  /\ (table_ok (table w) -> table_ok (table w'))
  /\ calls w' = calls w.
Proof.
  intros H. rewrite DeleteLineup_run, H. cbn [table calls].
  split; [reflexivity|]. split; [intros r; apply others_in|].
  split; [apply others_lack|]. split; [apply filter_keeps_table_ok | reflexivity].
Qed.

(** X17: [DeleteLineup] changes nothing when the driver fails the statement,
    whose error it returns, and nothing when no row has the key. *)
Theorem DeleteLineup_no_effect lineupID w :
  (forall e, pending w = Some e ->
     runState (DeleteLineup (LineupChannel := LineupChannel) lineupID) w
     = ((Some zero, Some e), consumed w))
  /\ (~ In lineupID (ids (table w)) ->
      table (snd (runState (DeleteLineup (LineupChannel := LineupChannel) lineupID) w))
      = table w).
Proof.
  rewrite DeleteLineup_run. split.
  - intros e H. rewrite H. reflexivity.
  - intros H. destruct (pending w); cbn; [reflexivity|].
    now apply others_absent.
Qed.

(** X18: After a [DeleteLineup] that the driver let through, a lookup of the
    same key finds nothing: [GetLineupByID] returns [sql.ErrNoRows]. *)
Theorem DeleteLineup_then_lookup
  (GetChannelsForLineup : Z -> bool -> list LineupChannel * option error)
  lineupID w :
  healthy 2 w ->
  let w' := snd (runState (DeleteLineup (LineupChannel := LineupChannel) lineupID) w) in
  fst (runState (GetLineupByID GetChannelsForLineup lineupID false) w')
  = (Some zero, Some ErrNoRows).
Proof.
  intros H. apply healthy_step in H. destruct H as [H1 H].
  apply healthy_step in H. destruct H as [H2 _].
  rewrite DeleteLineup_run, H1. cbn [snd].
  rewrite GetLineupByID_run, lookup_run, found_absent;
    [reflexivity | exact H2 | apply others_lack].
Qed.

(** X19: Deleting the lineup that [InsertLineup] has just returned, by its id,
    puts the table back as it was before the insert. *)
Theorem InsertLineup_then_delete (l : Lineup) w :
  healthy 4 w ->
  let (res, w1) := runState (InsertLineup l) w in
  exists r,
    res = (Some r, None)
    /\ table (snd (runState (DeleteLineup (LineupChannel := LineupChannel) (ID r)) w1))
       = table w.
Proof.
  intros H.
  destruct (healthy_three w (healthy_more 3 1 w H)) as (H1 & H2 & H3).
  rewrite (InsertLineup_quiet l w H1 H2 H3). eexists. split; [reflexivity|].
  pose proof (healthy_later 3 1 w H) as K.
  change (healthy 1 (consumed (consumed (consumed w)))) in K.
  apply healthy_step in K. destruct K as [H4 _].
  rewrite DeleteLineup_run.
  change (pending (mkWorld (table w ++ [new_row l w]) (clock w)
                           (tl (tl (tl (faults w)))) (calls w)))
    with (pending (consumed (consumed (consumed w)))).
  rewrite H4. cbn [snd table ID scan]. apply others_inserted.
Qed.

(** *** UpdateLineup *)

(** X20: [UpdateLineup] updates nothing, whatever it is given: it returns the
    zero lineup with the driver's error or, the driver being healthy, with
    the engine's refusal of the [description] column, and the table is as
    before. *)
Theorem UpdateLineup_never_updates lineupID description w :
  runState (UpdateLineup (LineupChannel := LineupChannel) lineupID description) w
  = ((Some zero,
      Some match pending w with
           | Some e => e
           | None => ErrSQL "no such column: description"
           end),
     consumed w).
Proof.
  unfold UpdateLineup. rewrite bind_run, Get_run, exec_run.
  cbn [run]. rewrite description_not_a_column.
  destruct (pending w); reflexivity.
Qed.

End Writes.

(** ** The discovery document of a stored lineup *)

Section Documents.

Context {LineupChannel : Type}.

Local Abbreviation Lineup := (SQLLineup (LineupChannel := LineupChannel)).
Local Abbreviation zero := (zero_SQLLineup (LineupChannel := LineupChannel)).

(** [%d] never prints a colon, and prints different ints differently. *)
Lemma digits_colon_free (d : uint) : Fmt.colon_free (NilEmpty.string_of_uint d).
Proof. induction d; cbn; repeat split; try discriminate; assumption. Qed.

Lemma itoa_colon_free (n : Z) : Fmt.colon_free (Fmt.itoa n).
Proof.
  unfold Fmt.itoa, NilZero.string_of_int, NilZero.string_of_uint.
  destruct (Z.to_int n) as [d|d]; destruct d; cbn; repeat split;
    try discriminate; apply digits_colon_free.
Qed.

Lemma itoa_inj (a b : Z) : Fmt.itoa a = Fmt.itoa b -> a = b.
Proof.
  unfold Fmt.itoa. intros H.
  assert (R : forall n, NilZero.int_of_string (NilZero.string_of_int (Z.to_int n))
                        = Some (Z.to_int n)).
  { intros n. apply NilZero.isi; destruct n; cbn; try discriminate;
      intros [= E]; now apply Unsigned.to_uint_nonnil in E. }
  pose proof (R a) as Ra. rewrite H, R in Ra. injection Ra as E.
  apply (f_equal Z.of_int) in E. now rewrite !DecimalZ.of_to in E.
Qed.

(** A string splits in one way only into a part, a colon and a part
    without colon. *)
Lemma colon_split (a1 a2 t1 t2 : string) :
  Fmt.colon_free t1 -> Fmt.colon_free t2 ->
  a1 ++ ":" ++ t1 = a2 ++ ":" ++ t2 -> a1 = a2 /\ t1 = t2.
Proof.
  revert a2. induction a1 as [|c a1 IH]; intros [|c2 a2] F1 F2; cbn.
  - intros [= E]. auto.
  - intros [= <- E]. subst t1. exfalso. clear -F1.
    induction a2 as [|x a2 IH]; cbn in F1; [now destruct F1 | tauto].
  - intros [= -> E]. subst t2. exfalso. clear -F2.
    induction a1 as [|x a1 IH]; cbn in F2; [now destruct F2 | tauto].
  - intros [= <- E]. destruct (IH a2 F1 F2 E) as [-> ->]. auto.
Qed.

(** X21: The base URL tells the discovery address and the port apart: two
    lineups with the same base URL have the same discovery address and the
    same port. *)
Theorem baseURL_injective (s1 s2 : Lineup) :
  dd_BaseURL (fst (runState GetDiscoveryData s1))
  = dd_BaseURL (fst (runState GetDiscoveryData s2)) ->
  DiscoveryAddress s1 = DiscoveryAddress s2 /\ Port s1 = Port s2.
Proof.
  rewrite !GetDiscoveryData_run. unfold discovery_of.
  cbn [fst dd_BaseURL]. rewrite !Sprintf_base. intros [= H].
  apply colon_split in H; try apply itoa_colon_free.
  destruct H as [Ha Hp]. split; [exact Ha | now apply itoa_inj].
Qed.

(** X22: The document built from the descriptor of a lineup, in terms of the
    lineup: the URL base is "http://", the discovery address, a colon and
    the port; the friendly name is the lineup's name; the serial number is
    its device id and the UDN its device UUID; the listen address, the
    tuner count and the firmware fields do not appear in it. *)
Theorem UPNP_of_lineup (s : Lineup) :
  UPNP (fst (runState GetDiscoveryData s))
  = {| rd_SpecVersion := {| Major := 1; Minor := 0 |};
       rd_URLBaseStr := "http://" ++ DiscoveryAddress s ++ ":" ++ Fmt.itoa (Port s);
       rd_Device :=
         {| DeviceType := "urn:schemas-upnp-org:device:MediaServer:1";
            FriendlyName := Name s;
            Manufacturer := lu_Manufacturer s;
            ModelName := lu_ModelName s;
            ModelNumber := lu_ModelNumber s;
            ModelDescription := lu_ModelNumber s ++ " " ++ lu_ModelName s;
            SerialNumber := DeviceID s;
            UDN := DeviceUUID s;
            PresentationURL := {| Str := "/" |} |} |}.
Proof.
  rewrite GetDiscoveryData_run. unfold UPNP, discovery_of.
  cbn [fst dd_BaseURL dd_FriendlyName dd_Manufacturer dd_ModelName
       dd_ModelNumber dd_DeviceID dd_DeviceUUID].
  now rewrite Sprintf_base, Sprintf_description.
Qed.

(** X23: Asking for the channels does not change what is advertised: when
    [GetLineupByID] returns a lineup with the flag and one without it, from
    the same world, both lineups have the same descriptor. *)
Theorem descriptor_same_with_channels
  (GetChannelsForLineup : Z -> bool -> list LineupChannel * option error)
  id w l1 e1 w1 l0 e0 w0 :
  runState (GetLineupByID GetChannelsForLineup id true) w = ((Some l1, e1), w1) ->
  runState (GetLineupByID GetChannelsForLineup id false) w = ((Some l0, e0), w0) ->
  fst (runState GetDiscoveryData l1) = fst (runState GetDiscoveryData l0)
  /\ e1 = e0.
Proof.
  rewrite !GetLineupByID_run, lookup_run.
  destruct (found zero id w) as [lineup err]. cbn.
  destruct (GetChannelsForLineup (ID lineup) true) as [channels [e|]];
    intros H1 H0; inversion H1; inversion H0; subst.
  split; reflexivity.
Qed.

End Documents.

(** ** Concrete runs *)

Module Examples.

Import Sample.

(** C1, on the code: with a single stored lineup whose ssdp flag is false,
    [GetEnabledLineups] succeeds and returns that lineup; the query it
    sends has no condition on [ssdp]. *)
Theorem GetEnabledLineups_returns_disabled :
  fst (runState (GetEnabledLineups channels_ok false) (world [stored 1 false]))
  = (Some [scan (stored 1 false) zero], None)
  /\ SSDP (scan (stored 1 false) zero) = false.
Proof. split; reflexivity. Qed.

(** C2, on the code: [UpdateLineup] on a stored lineup returns the zero
    lineup and the engine's error, the table being left as it was; the
    statement assigns to [description], which is no column of the table. *)
Theorem UpdateLineup_returns_error :
  runState (UpdateLineup 1 "evening") (world [stored 1 true])
  = ((Some zero, Some (ErrSQL "no such column: description")),
     world [stored 1 true]).
Proof. reflexivity. Qed.

(** C3, on the code: [DeleteLineup] on a stored lineup removes the row and
    returns the zero lineup with [sql.ErrNoRows], not the row removed; the
    statement has no [RETURNING] clause. *)
Theorem DeleteLineup_returns_zero_value :
  runState (DeleteLineup 1) (world [stored 1 true; stored 2 true])
  = ((Some zero, Some ErrNoRows), world [stored 2 true])
  /\ scan (stored 1 true) zero <> zero.
Proof. split; [reflexivity | discriminate]. Qed.

Lemma InsertLineup_roundtrip_witness :
  exists r w',
    runState (InsertLineup input) (world [stored 1 true]) = ((Some r, None), w')
    /\ (table w' = [stored 1 true; row_of r]
        /\ supplied r = supplied input
        /\ ID r <> 0 /\ ~ In (ID r) (ids [stored 1 true])
        /\ CreatedAt r <> None
        /\ forall w2, table w2 = table w' -> pending w2 = None ->
             fst (runState (GetLineupByID channels_ok (ID r) false) w2)
             = (Some r, None)).
Proof.
  do 2 eexists. split; [reflexivity|].
  exact (InsertLineup_roundtrip channels_ok input (world [stored 1 true])
           _ _ eq_refl).
Defined.

Lemma hydration_failure_aborts_witness :
  let w := world [stored 1 true; stored 2 false] in
  (In (2, true) [(1, true); (2, true)]
   /\ failing channels_down_for_2 (2, true)
   /\ fst (runState (GetEnabledLineups channels_down_for_2 true) w)
      = (None, Some (ErrOther "channel store down")))
  /\ (In (2, true) [(2, true)]
      /\ fst (runState (GetLineupByID channels_down_for_2 2 true) w)
         = (None, Some (ErrOther "channel store down"))).
Proof.
  intros w.
  assert (I2 : In (2, true) [(1, true); (2, true)]) by (right; left; reflexivity).
  assert (I1 : In (2, true) [(2, true)]) by (left; reflexivity).
  assert (F : failing channels_down_for_2 (2, true)) by discriminate.
  split; [split; [exact I2 | split; [exact F|]] | split; [exact I1|]].
  - destruct (runState (GetEnabledLineups channels_down_for_2 true) w)
      as [[res err] w'] eqn:E.
    destruct (proj2 (hydration_failure_aborts channels_down_for_2 w _ _ I2 F)
                res err w' E) as [-> ->].
    + vm_compute in E. now inversion E.
    + reflexivity.
  - destruct (runState (GetLineupByID channels_down_for_2 2 true) w)
      as [[res err] w'] eqn:E.
    destruct (proj1 (hydration_failure_aborts channels_down_for_2 w _ _ I1 F)
                2 res err w' E) as [-> ->].
    + vm_compute in E. now inversion E.
    + reflexivity.
Defined.

Lemma GetDiscoveryData_urls_witness :
  let s := scan (stored 1 true) zero in
  DiscoveryAddress s = "10.0.0.5" /\ Port s = 6077
  /\ dd_BaseURL (fst (runState GetDiscoveryData s)) = "http://10.0.0.5:6077"
  /\ dd_LineupURL (fst (runState GetDiscoveryData s))
     = "http://10.0.0.5:6077/lineup.json".
Proof.
  intros s. split; [reflexivity | split; [reflexivity|]].
  exact (proj2 (proj2 (GetDiscoveryData_urls s)) eq_refl eq_refl).
Defined.

Lemma GetLineupByID_failed_lookup_witness :
  snd (fst (runState (Get zero (SELECT (Some 3))) (world [stored 1 true])))
  = Some ErrNoRows
  /\ let '((res, err), w') :=
       runState (GetLineupByID channels_down_for_2 3 true) (world [stored 1 true]) in
     calls w' = [(0, true)]
     /\ res = Some (set_Channels ["BBC One"] zero) /\ err = Some ErrNoRows.
Proof.
  split; [reflexivity|].
  exact (GetLineupByID_failed_lookup channels_down_for_2 3
           (world [stored 1 true]) ErrNoRows eq_refl).
Defined.

(** C10 as worded fails: the row lookup finds nothing, the channel store
    answers for lineup 0 with two channels, and the lineup returned next to
    the lookup's error carries them, so it is not the zero lineup. *)
Lemma GetLineupByID_failed_lookup_not_zero :
  snd (fst (runState (Get zero (SELECT (Some 3))) (world [stored 1 true])))
  = Some ErrNoRows
  /\ snd (channels_ok 0 true) = None
  /\ exists l,
       fst (runState (GetLineupByID channels_ok 3 true) (world [stored 1 true]))
       = (Some l, Some ErrNoRows)
       /\ Channels l = ["BBC One"; "BBC Two"]
       /\ l <> zero.
Proof.
  split; [reflexivity | split; [reflexivity|]].
  eexists. split; [reflexivity | split; [reflexivity | discriminate]].
Qed.

End Examples.

(** ** More concrete runs *)

Module Runs.

Import Sample.

Ltac keys_unique :=
  unfold table_ok; cbn;
  repeat (constructor; [cbn; intuition discriminate|]); constructor.

Lemma GetLineupByID_stored_witness :
  let w := world [stored 1 true; stored 2 false] in
  table_ok (table w) /\ In (stored 2 false) (table w) /\ pending w = None
  /\ fst (runState (GetLineupByID channels_ok 2 false) w)
     = (Some (scan (stored 2 false) zero), None).
Proof.
  intros w.
  assert (K : table_ok (table w)) by keys_unique.
  assert (I : In (stored 2 false) (table w)) by (right; left; reflexivity).
  split; [exact K | split; [exact I | split; [reflexivity|]]].
  exact (proj1 (GetLineupByID_stored channels_ok w (stored 2 false) K I eq_refl)).
Defined.

Lemma GetLineupByID_absent_witness :
  let w := world [stored 1 true] in
  pending w = None /\ ~ In 5 (ids (table w))
  /\ fst (runState (GetLineupByID channels_ok 5 false) w)
     = (Some zero, Some ErrNoRows).
Proof.
  intros w.
  assert (A : ~ In 5 (ids (table w))) by (cbn; intuition discriminate).
  split; [reflexivity | split; [exact A|]].
  exact (GetLineupByID_absent channels_ok w 5 eq_refl A).
Defined.

Lemma GetLineupByID_sound_witness :
  let w := world [stored 1 true; stored 2 false] in
  exists l w',
    runState (GetLineupByID channels_ok 2 true) w = ((Some l, None), w')
    /\ ID l = 2 /\ In (row_of l) (table w).
Proof.
  intros w. do 2 eexists. split; [reflexivity|].
  pose proof (GetLineupByID_sound channels_ok 2 true w _ _ eq_refl) as H.
  split; [exact (proj1 H) | exact (proj1 (proj2 H))].
Defined.

Lemma GetEnabledLineups_without_channels_witness :
  let w := world [stored 1 true; stored 2 false] in
  pending w = None
  /\ runState (GetEnabledLineups channels_ok false) w
     = ((Some [scan (stored 1 true) zero; scan (stored 2 false) zero], None), w).
Proof.
  intros w. split; [reflexivity|].
  exact (GetEnabledLineups_without_channels channels_ok w eq_refl).
Defined.

Lemma GetEnabledLineups_hydrates_all_witness :
  let w := world [stored 1 true; stored 3 false] in
  pending w = None
  /\ (forall row, In row (table w) ->
        snd (channels_down_for_2 (col_id row) true) = None)
  /\ fst (runState (GetEnabledLineups channels_down_for_2 true) w)
     = (Some [set_Channels ["BBC One"] (scan (stored 1 true) zero);
              set_Channels ["BBC One"] (scan (stored 3 false) zero)], None).
Proof.
  intros w.
  assert (A : forall row, In row (table w) ->
                snd (channels_down_for_2 (col_id row) true) = None).
  { intros row [<-|[<-|[]]]; reflexivity. }
  split; [reflexivity | split; [exact A|]].
  exact (GetEnabledLineups_hydrates_all channels_down_for_2 w eq_refl A).
Defined.

Lemma GetEnabledLineups_calls_witness :
  let w := world [stored 1 true; stored 2 true; stored 3 true] in
  pending w = None
  /\ calls (snd (runState (GetEnabledLineups channels_down_for_2 true) w))
     = [(1, true); (2, true)].
Proof.
  intros w. split; [reflexivity|].
  exact (GetEnabledLineups_calls channels_down_for_2 w eq_refl).
Defined.

Lemma GetEnabledLineups_driver_failure_witness :
  let w := world_with [Some refused] [stored 1 true] in
  pending w = Some refused
  /\ runState (GetEnabledLineups channels_ok true) w
     = ((Some [], Some refused), world [stored 1 true]).
Proof.
  intros w. split; [reflexivity|].
  exact (GetEnabledLineups_driver_failure channels_ok true w refused eq_refl).
Defined.

Lemma InsertLineup_healthy_witness :
  let w := world [stored 1 true] in
  healthy 3 w
  /\ fst (runState (InsertLineup input) w)
     = (Some (scan (insert_row 1700000000 [stored 1 true] (row_of input)) zero),
        None).
Proof.
  intros w. assert (H : healthy 3 w) by constructor.
  split; [exact H|].
  exact (f_equal fst (InsertLineup_healthy input w H)).
Defined.

Lemma InsertLineup_rejected_witness :
  let w := world_with [Some refused] [stored 1 true] in
  pending w = Some refused
  /\ runState (InsertLineup input) w
     = ((Some zero, Some refused), world [stored 1 true]).
Proof.
  intros w. split; [reflexivity|].
  exact (InsertLineup_rejected input w refused eq_refl).
Defined.

Lemma InsertLineup_late_failure_witness :
  let w := world_with [None; None; Some refused] [stored 1 true] in
  pending w = None
  /\ (pending (consumed w) = None /\ pending (consumed (consumed w)) = Some refused)
  /\ fst (runState (InsertLineup input) w) = (Some zero, Some refused)
  /\ length (table (snd (runState (InsertLineup input) w))) = 2%nat.
Proof.
  intros w.
  pose proof (InsertLineup_late_failure input w refused eq_refl
                (or_intror (conj eq_refl eq_refl))) as H.
  destruct (runState (InsertLineup input) w) as [res w'].
  destruct H as [-> Ht].
  split; [reflexivity | split; [split; reflexivity | split; [reflexivity|]]].
  cbn [snd]. rewrite Ht. reflexivity.
Defined.

Lemma InsertLineup_ignores_id_witness :
  let w := world [stored 1 true] in
  supplied (scan (row_of input) zero) = supplied input
  /\ runState (InsertLineup (scan (row_of input) zero)) w
     = runState (InsertLineup input) w.
Proof.
  intros w. split; [reflexivity|].
  exact (InsertLineup_ignores_id (scan (row_of input) zero) input w eq_refl).
Defined.

Lemma InsertLineup_twice_witness :
  let w := world [stored 4 true] in
  healthy 6 w
  /\ exists r1 r2 w1 w2,
       runState (InsertLineup input) w = ((Some r1, None), w1)
       /\ runState (InsertLineup input) w1 = ((Some r2, None), w2)
       /\ ID r1 < ID r2.
Proof.
  intros w. assert (H : healthy 6 w) by constructor.
  split; [exact H|].
  pose proof (InsertLineup_twice input input w H) as K.
  destruct (runState (InsertLineup input) w) as [res1 w1].
  destruct (runState (InsertLineup input) w1) as [res2 w2] eqn:E2.
  destruct K as (r1 & r2 & -> & -> & L).
  exists r1, r2, w1, w2.
  split; [reflexivity | split; [exact E2 | exact L]].
Defined.

Lemma DeleteLineup_removes_witness :
  let w := world [stored 1 true; stored 2 true] in
  pending w = None
  /\ ~ In 1 (ids (table (snd (runState (DeleteLineup (LineupChannel := string) 1) w)))).
Proof.
  intros w. split; [reflexivity|].
  pose proof (DeleteLineup_removes (LineupChannel := string) 1 w eq_refl) as H.
  destruct (runState (DeleteLineup 1) w) as [res w'].
  exact (proj1 (proj2 (proj2 H))).
Defined.

Lemma DeleteLineup_then_lookup_witness :
  let w := world [stored 1 true; stored 2 true] in
  healthy 2 w
  /\ fst (runState (GetLineupByID channels_ok 1 false)
            (snd (runState (DeleteLineup (LineupChannel := string) 1) w)))
     = (Some zero, Some ErrNoRows).
Proof.
  intros w. assert (H : healthy 2 w) by constructor.
  split; [exact H|].
  exact (DeleteLineup_then_lookup channels_ok 1 w H).
Defined.

Lemma InsertLineup_then_delete_witness :
  let w := world [stored 1 true] in
  healthy 4 w
  /\ exists r w1,
       runState (InsertLineup input) w = ((Some r, None), w1)
       /\ table (snd (runState (DeleteLineup (LineupChannel := string) (ID r)) w1))
          = [stored 1 true].
Proof.
  intros w. assert (H : healthy 4 w) by constructor.
  split; [exact H|].
  pose proof (InsertLineup_then_delete input w H) as K.
  destruct (runState (InsertLineup input) w) as [res w1].
  destruct K as (r & -> & E). exists r, w1.
  split; [reflexivity | exact E].
Defined.

Lemma baseURL_injective_witness :
  let s1 : Lineup := scan (stored 1 true) zero in
  let s2 : Lineup := scan (stored 2 false) zero in
  dd_BaseURL (fst (runState GetDiscoveryData s1))
  = dd_BaseURL (fst (runState GetDiscoveryData s2))
  /\ DiscoveryAddress s1 = DiscoveryAddress s2 /\ Port s1 = Port s2.
Proof.
  intros s1 s2. split; [reflexivity|].
  exact (baseURL_injective s1 s2 eq_refl).
Defined.

Lemma descriptor_same_with_channels_witness :
  let w := world [stored 1 true] in
  exists l1 l0 w1 w0,
    runState (GetLineupByID channels_ok 1 true) w = ((Some l1, None), w1)
    /\ runState (GetLineupByID channels_ok 1 false) w = ((Some l0, None), w0)
    /\ Channels l1 <> Channels l0
    /\ fst (runState GetDiscoveryData l1) = fst (runState GetDiscoveryData l0).
Proof.
  intros w. do 4 eexists.
  split; [reflexivity | split; [reflexivity | split; [discriminate|]]].
  exact (proj1 (descriptor_same_with_channels channels_ok 1 w _ None _ _ None _
                  eq_refl eq_refl)).
Defined.

End Runs.
